(** * ArcadePay backend: the ledger state machine of [server.py]

    A shallow embedding of the Flask handlers of [server.py] and the
    properties of the token ledger they implement.

    - The three tables ([User], [Transaction], [Machine]) are finite maps
      keyed by their primary key.
    - A handler is a computation in a small state monad over the [World]:
      the committed database plus the positions reached in the two
      sources of outside values a handler consults, the wall clock
      ([datetime.utcnow]) and the identifier generator ([uuid.uuid4]).
    - Python integers are unbounded, so token amounts are [Z]; [//] is
      floor division and raises on a zero divisor. The [Integer] columns
      that store them are bounded ([fits_integer]); the tables here hold
      any [Z], so they describe the code while the stored values fit.
    - Time stamps are [Z] counts of microseconds, the resolution of
      [datetime]; [timedelta.total_seconds() > 60] is then the comparison
      of the microsecond difference with [60 * 10^6].
    - An unhandled Python exception is the response [(500, BException)];
      what had been committed before it stays committed, what had not is
      rolled back.
    - A field of a JSON body is an [option]: [None] when the key is absent,
      which is when [data.get] falls back on its default. Identifiers are
      strings, amounts are integers ([int(...)] has been applied). *)

From stdpp Require Import gmap strings list fin_maps sorting pretty.
From Stdlib Require Import ZArith Lia.

Local Open Scope Z_scope.

(** ** Models *)

(** [Transaction.status]; the handlers only ever write these three values. *)
Inductive Status := pending | verified | failed.

(** [Transaction.txn_type]. *)
Inductive TxnType := spend | purchase | refund.

#[global] Instance Status_eq_dec : EqDecision Status.
Proof. solve_decision. Defined.

#[global] Instance TxnType_eq_dec : EqDecision TxnType.
Proof. solve_decision. Defined.

(** A row of [User]; the primary key [id] is the key of the table. *)
Record User := mkUser {
  display_name    : string;
  token_balance   : Z;
  user_created_at : Z
}.

(** A row of [Transaction]; the primary key [id] is the key of the table. *)
Record Transaction := mkTransaction {
  user_id      : string;
  machine_id   : option string;
  machine_name : option string;
  tokens       : Z;
  txn_type     : TxnType;
  status       : Status;
  created_at   : Z
}.

(** A row of [Machine]; the primary key [id] is the key of the table. *)
Record Machine := mkMachine {
  name              : option string;
  tokens_per_credit : Z;
  location          : option string
}.

Record Db := mkDb {
  users        : gmap string User;
  transactions : gmap string Transaction;
  machines     : gmap string Machine
}.

(** The committed database and how many clock readings and identifiers
    have been consumed so far. *)
Record World := mkWorld {
  db    : Db;
  ticks : nat;
  draws : nat
}.

Definition empty_db : Db := mkDb ∅ ∅ ∅.

(** ** Responses *)

Record HistoryEntry := mkHistoryEntry {
  h_id           : string;
  h_type         : TxnType;
  h_tokens       : Z;
  h_machine      : string;
  h_machine_name : string;
  h_status       : Status;
  h_time         : Z
}.

(** One element of the list returned by [get_pending]:
    [{"id": .., "tokens": .., "user_id": ..}]. *)
Record PendingEntry := mkPendingEntry {
  p_id      : string;
  p_tokens  : Z;
  p_user_id : string
}.

(** The JSON bodies the handlers build. *)
Inductive Body :=
| BError (error : string)
| BFailure (message : string)
| BHealth (timestamp : Z)
| BWallet (uid : string) (bal : Z)
| BBalance (new_balance : Z)
| BPay (transaction_id : string) (new_balance : Z) (expires_in : Z)
| BCredits (credits : Z) (transaction_id : option string)
| BSuccess
| BHistory (txns : list HistoryEntry)
| BRegistered (mid : string) (nm : option string)
| BPending (txns : list PendingEntry)
| BException.

(** HTTP status code and body. *)
Definition Response : Type := Z * Body.

(** The failure signals of the specification, as the handlers phrase them. *)
Definition Unauthorized     : Response := (403, BFailure "Invalid signature").
Definition NotFound         : Response := (404, BFailure "Transaction not found").
Definition AlreadyProcessed : Response := (409, BFailure "Transaction already processed").
Definition Expired          : Response :=
  (410, BFailure "Transaction expired — tokens refunded").
Definition InsufficientTokens (have need : Z) : Response :=
  (402, BError ("Insufficient tokens. Have " +:+ pretty have +:+ ", need "
                +:+ pretty need +:+ ".")).
Definition ServerError      : Response := (500, BException).

(** ** Python helpers *)

(** [not x] is false for a present, non-empty string only. *)
Definition truthy (x : option string) : option string :=
  match x with
  | Some s => if decide (s = "") then None else Some s
  | None => None
  end.

(** [f"{x}"] for a value that is a string or [None]. *)
Definition fmt (x : option string) : string :=
  match x with
  | Some s => s
  | None => "None"
  end.

(** [a // b]: floor division, [ZeroDivisionError] on a zero divisor. *)
Definition floordiv (a b : Z) : option Z :=
  if decide (b = 0) then None else Some (a / b).

(** [db.session.get(Model, key)]: the row with that primary key, if any;
    no row has the key [None]. The result keeps the key with the row,
    as the loaded object does. *)
Definition session_get {A} (table : gmap string A) (key : option string)
    : option (string * A) :=
  key ≫= λ k, (λ row, (k, row)) <$> table !! k.

(** The values an [Integer] column holds under both backends the
    configuration allows: 32 bits in PostgreSQL (SQLite stores 64). *)
Definition INTEGER_MIN : Z := - 2 ^ 31.

Definition INTEGER_MAX : Z := 2 ^ 31 - 1.

Definition fits_integer (z : Z) : Prop := INTEGER_MIN ≤ z ≤ INTEGER_MAX.

(** [timedelta.total_seconds() > 60] on microsecond time stamps. *)
Definition TTL_MICROS : Z := 60 * 1000000.

Definition expired (now created : Z) : bool :=
  bool_decide (TTL_MICROS < now - created).

(** The balance a wallet shows: a user without a row is created with 0
    on first reference. *)
Definition balance (d : Db) (uid : string) : Z :=
  match users d !! uid with
  | Some u => token_balance u
  | None => 0
  end.

Definition set_balance (b : Z) (u : User) : User :=
  mkUser (display_name u) b (user_created_at u).

Definition set_status (s : Status) (t : Transaction) : Transaction :=
  mkTransaction (user_id t) (machine_id t) (machine_name t) (tokens t)
                (txn_type t) s (created_at t).

Definition set_machine_id (m : option string) (t : Transaction) : Transaction :=
  mkTransaction (user_id t) m (machine_name t) (tokens t)
                (txn_type t) (status t) (created_at t).

Definition with_users (f : gmap string User → gmap string User) (d : Db) : Db :=
  mkDb (f (users d)) (transactions d) (machines d).

Definition with_transactions
    (f : gmap string Transaction → gmap string Transaction) (d : Db) : Db :=
  mkDb (users d) (f (transactions d)) (machines d).

Definition with_machines (f : gmap string Machine → gmap string Machine) (d : Db) : Db :=
  mkDb (users d) (transactions d) (f (machines d)).

(** ** The handler monad *)

Definition M (A : Type) : Type := World → A * World.

#[global] Instance M_ret : MRet M := λ A a w, (a, w).

#[global] Instance M_bind : MBind M :=
  λ A B k c w, let '(a, w') := c w in k a w'.

Definition get_db : M Db := λ w, (db w, w).

Definition modify_db (f : Db → Db) : M unit :=
  λ w, (tt, mkWorld (f (db w)) (ticks w) (draws w)).

(** Configuration and the outside world: the shared secret, the hash of
    [hashlib], the successive readings of the clock and the successive
    identifiers of [uuid4]. *)
Class Env := mkEnv {
  MACHINE_SECRET   : string;
  sha256_hexdigest : string → string;
  clock            : nat → Z;
  uuid4            : nat → string
}.

Section Server.

Context {env : Env}.

(** [datetime.utcnow()] *)
Definition utcnow : M Z :=
  λ w, (clock (ticks w), mkWorld (db w) (S (ticks w)) (draws w)).

(** [str(uuid.uuid4())] *)
Definition new_uuid : M string :=
  λ w, (uuid4 (draws w), mkWorld (db w) (ticks w) (S (draws w))).

(** ** Helpers *)

Definition get_or_create_user (uid : string) : M User :=
  d ← get_db;
  match users d !! uid with
  | Some user => mret user
  | None =>
      now ← utcnow;
      let user := mkUser "Player" 0 now in
      modify_db (with_users (insert uid user));;
      mret user
  end.

Definition verify_machine_signature
    (mid uid : option string) (tok : Z) (txn_id : option string)
    (signature : string) : bool :=
  let sig_data := fmt mid +:+ ":" +:+ fmt uid +:+ ":" +:+ pretty tok +:+ ":"
                  +:+ fmt txn_id in
  let expected := sha256_hexdigest (MACHINE_SECRET +:+ sig_data) in
  bool_decide (expected = signature).

(** ** Health check *)

Definition health : M Response :=
  now ← utcnow;
  mret (200, BHealth now).

(** ** Wallet *)

Definition get_wallet (uid : string) : M Response :=
  user ← get_or_create_user uid;
  mret (200, BWallet uid (token_balance user)).

(** ** Free tokens for testing *)

Definition give_tokens (uid : option string) (amt : option Z) : M Response :=
  let amount := default 10 amt in
  match truthy uid with
  | None => mret (400, BError "Missing user_id")
  | Some uid =>
      user ← get_or_create_user uid;
      let user := set_balance (token_balance user + amount) user in
      modify_db (with_users (insert uid user));;
      mret (200, BBalance (token_balance user))
  end.

(** ** Pay *)

(** [db.session.add(txn); db.session.commit()] together with the pending
    change to the user's row: the row defaults [id] and [created_at] are
    drawn at the insert; a primary key already present makes the commit
    raise, and nothing of the pending changes is kept. *)
Definition commit_with_new_txn
    (uid : string) (user : User) (mk : Z → Transaction)
    : M (option string) :=
  txn_id ← new_uuid;
  now ← utcnow;
  d ← get_db;
  match transactions d !! txn_id with
  | Some _ => mret None
  | None =>
      modify_db (with_users (insert uid user));;
      modify_db (with_transactions (insert txn_id (mk now)));;
      mret (Some txn_id)
  end.

Definition app_pay (uid mid : option string) (tok : option Z) : M Response :=
  let tokens := default 1 tok in
  match truthy uid, truthy mid with
  | Some uid, Some mid =>
      user ← get_or_create_user uid;
      if bool_decide (token_balance user < tokens) then
        mret (InsufficientTokens (token_balance user) tokens)
      else
        let user := set_balance (token_balance user - tokens) user in
        d ← get_db;
        let machine_name :=
          match machines d !! mid with
          | Some machine => name machine
          | None => Some mid
          end in
        r ← commit_with_new_txn uid user
                  (mkTransaction uid (Some mid) machine_name (- tokens)
                                 spend pending);
        match r with
        | Some txn_id => mret (200, BPay txn_id (token_balance user) 60)
        | None => mret ServerError
        end
  | _, _ => mret (400, BError "Missing user_id or machine_id")
  end.

(** ** Purchase tokens *)

Definition purchase_tokens
    (uid : option string) (tok : option Z) (payment_token : option string)
    : M Response :=
  let tokens := default 0 tok in
  (* read, and then not checked: [if payment_token != "demo": pass] *)
  let payment_token := default "" payment_token in
  match truthy uid with
  | Some uid =>
      if bool_decide (tokens ≤ 0) then mret (400, BError "Invalid purchase")
      else
        user ← get_or_create_user uid;
        let user := set_balance (token_balance user + tokens) user in
        r ← commit_with_new_txn uid user
                  (mkTransaction uid None (Some "Token Purchase") tokens
                                 purchase verified);
        match r with
        | Some _ => mret (200, BBalance (token_balance user))
        | None => mret ServerError
        end
  | None => mret (400, BError "Invalid purchase")
  end.

(** ** Verify *)

(** The refund of an expired reservation, shared by [machine_verify] and
    [get_pending]: the status becomes [failed] and the owner is credited
    with [abs(txn.tokens)]. *)
Definition refund_expired (txn_id : string) (txn : Transaction) : M unit :=
  modify_db (with_transactions (alter (set_status failed) txn_id));;
  user ← get_or_create_user (user_id txn);
  let user := set_balance (token_balance user + Z.abs (tokens txn)) user in
  modify_db (with_users (insert (user_id txn) user)).

Definition machine_verify
    (mid uid : option string) (tok : option Z) (txn_id : option string)
    (signature : string) : M Response :=
  let tokens := default 1 tok in
  if negb (verify_machine_signature mid uid tokens txn_id signature) then
    mret Unauthorized
  else
    d ← get_db;
    match session_get (transactions d) txn_id with
    | None => mret NotFound
    | Some (tid, txn) =>
        if negb (bool_decide (status txn = pending)) then mret AlreadyProcessed
        else
          now ← utcnow;
          if expired now (created_at txn) then
            refund_expired tid txn;;
            mret Expired
          else
            modify_db (with_transactions
              (alter (λ t, set_machine_id mid (set_status verified t)) tid));;
            d ← get_db;
            let rate :=
              match session_get (machines d) mid with
              | Some (_, machine) => tokens_per_credit machine
              | None => 1
              end in
            match floordiv tokens rate with
            | Some q => mret (200, BCredits (Z.max 1 q) txn_id)
            | None => mret ServerError
            end
    end.

(** ** History *)

Definition clear_history (uid : string) : M Response :=
  modify_db (with_transactions (filter (λ it, user_id it.2 ≠ uid)));;
  mret (200, BSuccess).

Definition newer_first (a b : string * Transaction) : Prop :=
  created_at b.2 ≤ created_at a.2.

#[global] Instance newer_first_dec a b : Decision (newer_first a b).
Proof. unfold newer_first. apply _. Defined.

Definition history_entry (it : string * Transaction) : HistoryEntry :=
  let t := it.2 in
  mkHistoryEntry it.1 (txn_type t) (tokens t)
    (default "Top Up" (truthy (machine_id t)))
    (match truthy (machine_name t) with
     | Some s => s
     | None => default "Token Purchase" (truthy (machine_id t))
     end)
    (status t) (created_at t).

Definition get_history (uid : string) : M Response :=
  d ← get_db;
  let txns :=
    take 50 (merge_sort newer_first
               (filter (λ it, user_id it.2 = uid)
                       (map_to_list (transactions d)))) in
  mret (200, BHistory (history_entry <$> txns)).

(** ** Machine registration *)

Definition register_machine
    (mid nm : option string) (tpc : option Z) : M Response :=
  let name := match nm with Some n => Some n | None => mid end in
  let tpc := default 1 tpc in
  match truthy mid with
  | None => mret (400, BError "Missing machine_id")
  | Some mid =>
      d ← get_db;
      let machine :=
        match machines d !! mid with
        | Some machine => mkMachine name tpc (location machine)
        | None => mkMachine name tpc None
        end in
      modify_db (with_machines (insert mid machine));;
      mret (200, BRegistered mid name)
  end.

(** ** Pending transactions *)

Definition older_first (a b : string * Transaction) : Prop :=
  created_at a.2 ≤ created_at b.2.

#[global] Instance older_first_dec a b : Decision (older_first a b).
Proof. unfold older_first. apply _. Defined.

(** The query of [get_pending]: the pending transactions of the machine,
    oldest first. The database leaves the order of rows with equal
    [created_at] open; here they come as the sort leaves them. *)
Definition pending_for (mid : string) (d : Db) : list (string * Transaction) :=
  merge_sort older_first
    (filter (λ it, machine_id it.2 = Some mid ∧ status it.2 = pending)
            (map_to_list (transactions d))).

(** The [for t in txns] loop; [result] is the list built so far. *)
Fixpoint get_pending_loop
    (txns : list (string * Transaction)) (result : list PendingEntry)
    : M (list PendingEntry) :=
  match txns with
  | [] => mret result
  | (tid, t) :: rest =>
      now ← utcnow;
      if expired now (created_at t) then
        refund_expired tid t;;
        get_pending_loop rest result
      else
        modify_db (with_transactions (alter (set_status verified) tid));;
        get_pending_loop rest
          (result ++ [mkPendingEntry tid (Z.abs (tokens t)) (user_id t)])
  end.

Definition get_pending (mid : string) : M Response :=
  d ← get_db;
  result ← get_pending_loop (pending_for mid d) [];
  mret (200, BPending result).

(** ** Startup *)

Definition startup : M unit :=
  d ← get_db;
  match machines d !! "M001" with
  | Some _ => mret tt
  | None =>
      modify_db (with_machines
        (insert "M001" (mkMachine (Some "Double Dragon") 1 None)))
  end.

(** ** The exposed operations *)

Inductive Request :=
| Health
| GetWallet (uid : string)
| GiveTokens (uid : option string) (amount : option Z)
| Pay (uid mid : option string) (tok : option Z)
| Purchase (uid : option string) (tok : option Z) (payment_token : option string)
| Verify (mid uid : option string) (tok : option Z) (txn_id : option string)
         (signature : string)
| ClearHistory (uid : string)
| GetHistory (uid : string)
| Register (mid nm : option string) (tpc : option Z)
| Pending (mid : string).

Definition handle (r : Request) : M Response :=
  match r with
  | Health => health
  | GetWallet uid => get_wallet uid
  | GiveTokens uid amount => give_tokens uid amount
  | Pay uid mid tok => app_pay uid mid tok
  | Purchase uid tok payment_token => purchase_tokens uid tok payment_token
  | Verify mid uid tok txn_id signature =>
      machine_verify mid uid tok txn_id signature
  | ClearHistory uid => clear_history uid
  | GetHistory uid => get_history uid
  | Register mid nm tpc => register_machine mid nm tpc
  | Pending mid => get_pending mid
  end.

(** A finite sequence of requests, served one after the other. *)
Fixpoint serve (rs : list Request) (w : World) : World :=
  match rs with
  | [] => w
  | r :: rs => serve rs (handle r w).2
  end.

(** The world of a fresh deployment, after the startup block. *)
Definition initial_world : World := (startup (mkWorld empty_db 0 0)).2.

(** ** Vocabulary of the statements *)

(** The element [get_pending] returns for a claimed transaction. *)
Definition pending_entry (it : string * Transaction) : PendingEntry :=
  mkPendingEntry it.1 (Z.abs (tokens it.2)) (user_id it.2).

(** The status the transaction [tid] has in [d], if it exists. *)
Definition status_of (d : Db) (tid : string) : option Status :=
  status <$> transactions d !! tid.

(** What a sweep over [l] that ended in [d'] has credited to [uid]: the
    absolute deltas of the transactions of [l] owned by [uid] that it
    left [failed]. *)
Definition refunded (d' : Db) (uid : string) (l : list (string * Transaction)) : Z :=
  foldr (λ it acc,
           if decide (user_id it.2 = uid ∧ status_of d' it.1 = Some failed)
           then Z.abs (tokens it.2) + acc else acc) 0 l.

(** The status a visit at clock reading [now] gives a pending transaction. *)
Definition swept_status (now : Z) (t : Transaction) : Status :=
  if expired now (created_at t) then failed else verified.

(** The moves a status may make in one step: none, or out of [pending]. *)
Definition status_transition (s s' : Status) : Prop :=
  s' = s ∨ (s = pending ∧ (s' = verified ∨ s' = failed)).

(** A grant of a negative amount. *)
Definition negative_grant (r : Request) : Prop :=
  match r with
  | GiveTokens uid amount => is_Some (truthy uid) ∧ default 10 amount < 0
  | _ => False
  end.

(** The signature the verifier expects for the four request fields. *)
Definition expected_signature
    (mid uid : option string) (tok : Z) (txn_id : option string) : string :=
  sha256_hexdigest
    (MACHINE_SECRET +:+ fmt mid +:+ ":" +:+ fmt uid +:+ ":" +:+ pretty tok
     +:+ ":" +:+ fmt txn_id).

(** The rate [machine_verify] divides by: the machine's
    [tokens_per_credit], or 1 when there is no such machine. *)
Definition rate_of (d : Db) (mid : option string) : Z :=
  match session_get (machines d) mid with
  | Some (_, machine) => tokens_per_credit machine
  | None => 1
  end.

(** The row [app_pay] inserts. *)
Definition reservation
    (d : Db) (u m : string) (tok now : Z) : Transaction :=
  mkTransaction u (Some m)
    (match machines d !! m with
     | Some machine => name machine
     | None => Some m
     end)
    (- tok) spend pending now.



(** Every wallet of [m] is still in [m'], under the same name and with
    the same creation time. *)
Definition users_kept (m m' : gmap string User) : Prop :=
  ∀ v u, m !! v = Some u →
    ∃ u', m' !! v = Some u' ∧
          display_name u' = display_name u ∧
          user_created_at u' = user_created_at u.

(** The shape the handlers give the stored transactions: the owner has a
    wallet, and the transaction is a pending spend bound to a machine, or
    a spend that has been settled, or a verified purchase of a positive
    amount bound to no machine. *)
Definition consistent (d : Db) : Prop :=
  ∀ tid t, transactions d !! tid = Some t →
    is_Some (users d !! user_id t) ∧
    ((txn_type t = spend ∧ status t = pending ∧ is_Some (machine_id t)) ∨
     (txn_type t = spend ∧ status t ≠ pending) ∨
     (txn_type t = purchase ∧ status t = verified ∧ machine_id t = None ∧
      0 < tokens t)).

End Server.

(** ** A concrete deployment, for the examples *)

(** One clock reading per second. *)
Definition demo_clock (n : nat) : Z := Z.of_nat n * 1000000.

(** One hundred seconds between two clock readings. *)
Definition slow_clock (n : nat) : Z := Z.of_nat n * 100000000.

(** A stand-in for the digest: the examples only need some function. *)
Definition demo_digest (s : string) : string := "sha256(" +:+ s +:+ ")".

Definition demo_uuid4 (n : nat) : string := "txn-" +:+ pretty n.

(** The secret is the default of [MACHINE_SECRET]. *)
Definition demo_env : Env :=
  mkEnv "change-this-in-railway-variables" demo_digest demo_clock demo_uuid4.

Definition slow_env : Env :=
  mkEnv "change-this-in-railway-variables" demo_digest slow_clock demo_uuid4.

(** Alice is granted the default 10 tokens. *)
Definition demo_funded : World :=
  serve (env:=demo_env) [GiveTokens (Some "alice") None] initial_world.






(** On the one-second clock, she reserves 3 of them at the machine M001. *)
Definition demo_reserved : World :=
  serve (env:=demo_env) [Pay (Some "alice") (Some "M001") (Some 3)] demo_funded.

(** The reservation, as stored. *)
Definition demo_reservation : Transaction :=
  mkTransaction "alice" (Some "M001") (Some "Double Dragon") (-3)
                spend pending 1000000.

(** The signature of the machine's claim on it. *)
Definition demo_signature : string :=
  expected_signature (env:=demo_env) (Some "M001") (Some "alice") 3 (Some "txn-0").

(** The machine claims it within the minute. *)
Definition demo_claimed : World :=
  serve (env:=demo_env)
    [Verify (Some "M001") (Some "alice") (Some 3) (Some "txn-0") demo_signature]
    demo_reserved.

(** A machine M0 registered with a rate of zero tokens per credit, and a
    reservation of Alice's at it. *)
Definition zero_rate_registered : World :=
  serve (env:=demo_env) [Register (Some "M0") None (Some 0)] initial_world.

Definition zero_rate_reserved : World :=
  serve (env:=demo_env)
    [GiveTokens (Some "alice") None; Pay (Some "alice") (Some "M0") (Some 3)]
    zero_rate_registered.

(** The same machine M0, and a reservation of Alice's at M001. *)
Definition other_machine_reserved : World :=
  serve (env:=demo_env)
    [GiveTokens (Some "alice") None; Pay (Some "alice") (Some "M001") (Some 3)]
    zero_rate_registered.

(** * Properties *)

(** Unfolding of the monad's plumbing down to explicit world passing. *)
Ltac unfold_M :=
  unfold mbind, M_bind, mret, M_ret, get_db, modify_db, utcnow, new_uuid in *.

Section Properties.

Context {env : Env}.

Lemma balance_insert d uid (u : User) v :
  balance (with_users (insert uid u) d) v =
  if decide (uid = v) then token_balance u else balance d v.
Proof.
  unfold balance, with_users; simpl.
  rewrite lookup_insert. by destruct (decide (uid = v)).
Qed.

(** ** The helper [get_or_create_user] *)

(** It returns the row now stored under [uid]; the balance it shows is
    the wallet's balance before the call; nothing else moves. *)
Lemma get_or_create_user_spec uid w :
  ∃ u w',
    get_or_create_user uid w = (u, w') ∧
    users (db w') !! uid = Some u ∧
    token_balance u = balance (db w) uid ∧
    (∀ v, balance (db w') v = balance (db w) v) ∧
    transactions (db w') = transactions (db w) ∧
    machines (db w') = machines (db w) ∧
    draws w' = draws w ∧
    (ticks w ≤ ticks w')%nat.
Proof.
  unfold get_or_create_user, balance; unfold_M; simpl.
  destruct (users (db w) !! uid) as [u|] eqn:E; simpl.
  - exists u, w. rewrite E. repeat split; auto.
  - eexists _, _. split; [reflexivity|]. simpl.
    rewrite lookup_insert_eq. repeat split; auto with lia.
    intros v. rewrite lookup_insert.
    destruct (decide (uid = v)) as [<-|]; [by rewrite E | done].
Qed.

(** ** The refund of an expired reservation *)

Lemma refund_expired_spec tid t w :
  ∃ w',
    refund_expired tid t w = (tt, w') ∧
    transactions (db w') = alter (set_status failed) tid (transactions (db w)) ∧
    machines (db w') = machines (db w) ∧
    draws w' = draws w ∧
    (ticks w ≤ ticks w')%nat ∧
    ∀ v, balance (db w') v =
         balance (db w) v + (if decide (user_id t = v) then Z.abs (tokens t) else 0).
Proof.
  unfold refund_expired; unfold_M; simpl.
  set (w1 := mkWorld _ _ _).
  destruct (get_or_create_user_spec (user_id t) w1)
    as (u & w2 & -> & Hu & Hb & Ho & Ht & Hm & Hd & Hk).
  eexists. split; [reflexivity|]. simpl.
  repeat split; try (subst w1; simpl in *; congruence || lia).
  intros v. rewrite balance_insert. simpl.
  destruct (decide (user_id t = v)) as [<-|Hne].
  - rewrite Hb. done.
  - rewrite Ho. subst w1. unfold balance. simpl. lia.
Qed.

(** ** The loop of [get_pending] *)

Lemma get_pending_loop_spec l : ∀ result w,
  NoDup l.*1 →
  (∀ tid t, (tid, t) ∈ l → transactions (db w) !! tid = Some t) →
  ∃ w',
    get_pending_loop l result w =
      (result ++ (pending_entry <$>
                    filter (λ it, status_of (db w') it.1 = Some verified) l), w') ∧
    machines (db w') = machines (db w) ∧
    draws w' = draws w ∧
    (ticks w ≤ ticks w')%nat ∧
    (∀ tid, tid ∉ l.*1 → transactions (db w') !! tid = transactions (db w) !! tid) ∧
    (∀ tid t, (tid, t) ∈ l →
       ∃ k, (ticks w ≤ k < ticks w')%nat ∧
            transactions (db w') !! tid = Some (set_status (swept_status (clock k) t) t)) ∧
    (∀ v, balance (db w') v = balance (db w) v + refunded (db w') v l).
Proof.
  induction l as [|[tid t] rest IH]; intros result w Hnd Hin.
  - exists w. simpl. unfold_M. rewrite app_nil_r.
    repeat split; auto with lia.
    all: try (intros ?? H; by apply elem_of_nil in H).
    all: intros; simpl; lia.
  - rewrite fmap_cons in Hnd. apply NoDup_cons in Hnd as [Hnotin Hnd].
    assert (Hhd : transactions (db w) !! tid = Some t)
      by (apply Hin; left).
    (* the visit of the head *)
    assert (∃ w1,
      (ticks w < ticks w1)%nat ∧ machines (db w1) = machines (db w) ∧
      draws w1 = draws w ∧
      transactions (db w1) =
        alter (set_status (swept_status (clock (ticks w)) t)) tid (transactions (db w)) ∧
      (∀ v, balance (db w1) v = balance (db w) v +
            (if decide (user_id t = v ∧ swept_status (clock (ticks w)) t = failed)
             then Z.abs (tokens t) else 0)) ∧
      ∀ result,
        get_pending_loop ((tid, t) :: rest) result w =
        get_pending_loop rest
          (result ++ (if decide (swept_status (clock (ticks w)) t = verified)
                      then [pending_entry (tid, t)] else [])) w1)
      as (w1 & Hk1 & Hm1 & Hd1 & Ht1 & Hb1 & Hstep).
    { unfold swept_status. simpl. unfold_M. simpl.
      destruct (expired (clock (ticks w)) (created_at t)) eqn:E.
      - set (w0 := mkWorld _ _ _).
        destruct (refund_expired_spec tid t w0)
          as (w1 & Heq & Ht' & Hm' & Hd' & Hk' & Hb').
        exists w1. subst w0; simpl in *. repeat split; auto with lia.
        + intros v. rewrite Hb'. unfold balance; simpl. f_equal.
          destruct (decide (user_id t = v)) as [Hu|Hu].
          * by rewrite decide_True.
          * rewrite decide_False; [done | by intros [? _]].
        + intros r. rewrite Heq. by rewrite app_nil_r.
      - exists (mkWorld (with_transactions (alter (set_status verified) tid) (db w))
                        (S (ticks w)) (draws w)).
        simpl. repeat split; auto with lia.
        intros v. rewrite decide_False by (by intros [_ ?]).
        unfold balance; simpl; lia. }
    destruct (IH (result ++ (if decide (swept_status (clock (ticks w)) t = verified)
                             then [pending_entry (tid, t)] else [])) w1 Hnd)
      as (w' & Heq & Hm & Hd & Hk & Hout & Hins & Hbal).
    { intros tid' t' H'. rewrite Ht1, lookup_alter_ne; [by apply Hin; right|].
      intros ->. apply Hnotin. apply list_elem_of_fmap. by exists (tid', t'). }
    assert (Hfin : transactions (db w') !! tid =
                   Some (set_status (swept_status (clock (ticks w)) t) t)).
    { rewrite Hout by done. by rewrite Ht1, lookup_alter_eq, Hhd. }
    exists w'. rewrite Hstep, Heq.
    repeat split; try congruence; try lia.
    + f_equal. rewrite filter_cons. simpl.
      assert (Hst : status_of (db w') tid = Some (swept_status (clock (ticks w)) t))
        by (unfold status_of; by rewrite Hfin).
      rewrite Hst, <- app_assoc. f_equal.
      by destruct (swept_status (clock (ticks w)) t).
    + intros tid' Hni. simpl in Hni. apply not_elem_of_cons in Hni as [Hne Hni].
      rewrite Hout by done. by rewrite Ht1, lookup_alter_ne.
    + intros tid' t' H'. apply elem_of_cons in H' as [[= -> ->]|H'].
      * exists (ticks w). split; [lia | done].
      * destruct (Hins _ _ H') as (k & Hk' & Hl). exists k. split; [lia | done].
    + intros v. rewrite Hbal, Hb1. simpl.
      assert (Hst : status_of (db w') tid = Some (swept_status (clock (ticks w)) t))
        by (unfold status_of; by rewrite Hfin).
      rewrite Hst.
      destruct (decide (user_id t = v ∧ _ = failed)) as [[? Hf]|Hn],
               (decide (user_id t = v ∧ _ = Some failed)) as [[? Hf']|Hn'];
        try lia.
      * destruct Hn'. by rewrite Hf.
      * destruct Hn. split; congruence.
Qed.

(** ** The query of [get_pending] *)

#[local] Instance older_first_total : Total older_first.
Proof. intros a b. unfold older_first. lia. Qed.

#[local] Instance older_first_trans : Transitive older_first.
Proof. intros a b c. unfold older_first. lia. Qed.

Lemma pending_for_elem mid d tid t :
  (tid, t) ∈ pending_for mid d ↔
  transactions d !! tid = Some t ∧ machine_id t = Some mid ∧ status t = pending.
Proof.
  unfold pending_for. rewrite merge_sort_Permutation.
  rewrite list_elem_of_filter, elem_of_map_to_list. simpl. tauto.
Qed.

Lemma pending_for_NoDup mid d : NoDup (pending_for mid d).*1.
Proof.
  unfold pending_for. rewrite merge_sort_Permutation.
  apply (sublist_NoDup _ (map_to_list (transactions d)).*1).
  - apply NoDup_fst_map_to_list.
  - apply fmap_sublist, sublist_filter.
Qed.


Lemma pending_for_nil mid d :
  (∀ tid t, transactions d !! tid = Some t →
            ¬ (machine_id t = Some mid ∧ status t = pending)) →
  pending_for mid d = [].
Proof.
  intros H. destruct (pending_for mid d) as [|[tid t] l] eqn:E; [done|].
  assert (Hin : (tid, t) ∈ pending_for mid d) by (rewrite E; left).
  apply pending_for_elem in Hin as (Hl & Hm & Hs). by destruct (H _ _ Hl).
Qed.

(** [get_pending] as a whole: the loop run on the query's result. *)
Lemma get_pending_effect mid w :
  let l := pending_for mid (db w) in
  ∃ w',
    get_pending mid w =
      ((200, BPending (pending_entry <$>
                 filter (λ it, status_of (db w') it.1 = Some verified) l)), w') ∧
    machines (db w') = machines (db w) ∧
    (ticks w ≤ ticks w')%nat ∧
    (∀ tid, tid ∉ l.*1 → transactions (db w') !! tid = transactions (db w) !! tid) ∧
    (∀ tid t, (tid, t) ∈ l →
       ∃ k, (ticks w ≤ k < ticks w')%nat ∧
            transactions (db w') !! tid = Some (set_status (swept_status (clock k) t) t)) ∧
    (∀ v, balance (db w') v = balance (db w) v + refunded (db w') v l).
Proof.
  intros l.
  assert (Hl : ∀ tid t, (tid, t) ∈ l → transactions (db w) !! tid = Some t).
  { intros tid t H. by apply pending_for_elem in H as (? & _). }
  destruct (get_pending_loop_spec l [] w (pending_for_NoDup mid (db w)) Hl)
    as (w' & Heq & Hm & Hd & Hk & Hout & Hins & Hbal).
  exists w'. split; [|done].
  unfold get_pending; unfold_M; simpl. fold l. by rewrite Heq.
Qed.



(** ** [machine_verify], branch by branch *)

Lemma verify_machine_signature_iff mid uid tok txn_id signature :
  verify_machine_signature mid uid tok txn_id signature = true ↔
  signature = expected_signature mid uid tok txn_id.
Proof.
  unfold verify_machine_signature, expected_signature.
  rewrite bool_decide_eq_true. split; congruence.
Qed.

Lemma machine_verify_unauthorized mid uid tok txn_id signature w :
  verify_machine_signature mid uid (default 1 tok) txn_id signature = false →
  machine_verify mid uid tok txn_id signature w = (Unauthorized, w).
Proof. intros H. unfold machine_verify. by rewrite H. Qed.

Lemma machine_verify_not_found mid uid tok txn_id signature w :
  verify_machine_signature mid uid (default 1 tok) txn_id signature = true →
  session_get (transactions (db w)) txn_id = None →
  machine_verify mid uid tok txn_id signature w = (NotFound, w).
Proof.
  intros H Hg. unfold machine_verify. rewrite H. unfold_M; simpl. by rewrite Hg.
Qed.

Lemma machine_verify_already_processed mid uid tok tid signature w t :
  verify_machine_signature mid uid (default 1 tok) (Some tid) signature = true →
  transactions (db w) !! tid = Some t →
  status t ≠ pending →
  machine_verify mid uid tok (Some tid) signature w = (AlreadyProcessed, w).
Proof.
  intros H Hl Hs. unfold machine_verify. rewrite H. unfold_M; simpl.
  rewrite Hl. simpl. by rewrite bool_decide_eq_false_2.
Qed.

Lemma machine_verify_expired mid uid tok tid signature w t :
  verify_machine_signature mid uid (default 1 tok) (Some tid) signature = true →
  transactions (db w) !! tid = Some t →
  status t = pending →
  expired (clock (ticks w)) (created_at t) = true →
  ∃ w',
    machine_verify mid uid tok (Some tid) signature w = (Expired, w') ∧
    transactions (db w') = alter (set_status failed) tid (transactions (db w)) ∧
    machines (db w') = machines (db w) ∧
    ∀ v, balance (db w') v =
         balance (db w) v + (if decide (user_id t = v) then Z.abs (tokens t) else 0).
Proof.
  intros H Hl Hs He. unfold machine_verify. rewrite H. unfold_M; simpl.
  rewrite Hl. simpl. rewrite bool_decide_eq_true_2 by done. simpl. rewrite He.
  set (w0 := mkWorld _ _ _).
  destruct (refund_expired_spec tid t w0) as (w' & -> & Ht & Hm & _ & _ & Hb).
  exists w'. repeat split; done.
Qed.

Lemma machine_verify_fresh mid uid tok tid signature w t :
  verify_machine_signature mid uid (default 1 tok) (Some tid) signature = true →
  transactions (db w) !! tid = Some t →
  status t = pending →
  expired (clock (ticks w)) (created_at t) = false →
  machine_verify mid uid tok (Some tid) signature w =
    (match floordiv (default 1 tok) (rate_of (db w) mid) with
     | Some q => (200, BCredits (Z.max 1 q) (Some tid))
     | None => ServerError
     end,
     mkWorld (with_transactions
                (alter (λ t, set_machine_id mid (set_status verified t)) tid) (db w))
             (S (ticks w)) (draws w)).
Proof.
  intros H Hl Hs He. unfold machine_verify, rate_of. rewrite H. unfold_M; simpl.
  rewrite Hl. simpl. rewrite bool_decide_eq_true_2 by done. simpl. rewrite He.
  by destruct (floordiv _ _).
Qed.

(** With a matching signature the response is never the 403. *)
Lemma machine_verify_authorized mid uid tok txn_id signature w :
  verify_machine_signature mid uid (default 1 tok) txn_id signature = true →
  (machine_verify mid uid tok txn_id signature w).1 ≠ Unauthorized.
Proof.
  intros H. unfold machine_verify. rewrite H. unfold_M; simpl.
  destruct (session_get _ _) as [[tid t]|]; [|done].
  destruct (bool_decide (status t = pending)); simpl; [|done].
  destruct (expired _ _).
  - by destruct (refund_expired _ _ _).
  - by destruct (floordiv _ _).
Qed.

(** C7. The verifier is a function of the four request fields, the
    presented signature and the secret alone: it accepts exactly when the
    presented signature is the SHA-256 hex digest of the secret followed by
    [machineId:userId:tokens:transactionId]. [machine_verify] answers
    Unauthorized exactly when the presented signature differs from that
    value, and then leaves the world as it was. *)
Theorem machine_verify_unauthorized_iff mid uid tok txn_id signature w :
  let expected := expected_signature mid uid (default 1 tok) txn_id in
  (verify_machine_signature mid uid (default 1 tok) txn_id signature = true ↔
   signature = expected) ∧
  ((machine_verify mid uid tok txn_id signature w).1 = Unauthorized ↔
   signature ≠ expected) ∧
  (signature ≠ expected →
   machine_verify mid uid tok txn_id signature w = (Unauthorized, w)).
Proof.
  intros expected.
  pose proof (verify_machine_signature_iff mid uid (default 1 tok) txn_id signature)
    as Hiff. fold expected in Hiff.
  split; [done|].
  destruct (verify_machine_signature mid uid (default 1 tok) txn_id signature)
    eqn:Hv.
  - assert (signature = expected) as Heq by by apply Hiff.
    split; [|done]. split; [|done].
    intros Hr. by apply machine_verify_authorized in Hr.
  - assert (signature ≠ expected) as Hne.
    { intros Heq. apply Hiff in Heq. done. }
    rewrite machine_verify_unauthorized by done. done.
Qed.

(** ** Claims on a transaction that is no longer pending *)


(** What one authenticated claim does to the transaction it names: nothing
    (it was already processed), or it verifies it and moves no balance, or
    it fails it and credits the owner once. In each case the transaction
    is not pending afterwards. *)
Lemma machine_verify_outcome w tid t mid uid tok signature :
  transactions (db w) !! tid = Some t →
  verify_machine_signature mid uid (default 1 tok) (Some tid) signature = true →
  let w1 := (machine_verify mid uid tok (Some tid) signature w).2 in
  (∃ t1, transactions (db w1) !! tid = Some t1 ∧ status t1 ≠ pending) ∧
  ((status t ≠ pending ∧ w1 = w) ∨
   (status t = pending ∧ status_of (db w1) tid = Some verified ∧
    ∀ v, balance (db w1) v = balance (db w) v) ∨
   (status t = pending ∧ status_of (db w1) tid = Some failed ∧
    ∀ v, balance (db w1) v =
         balance (db w) v + (if decide (user_id t = v) then Z.abs (tokens t) else 0))).
Proof.
  intros Hl Hv w1. subst w1. unfold status_of.
  destruct (decide (status t = pending)) as [Hs|Hs].
  - destruct (expired (clock (ticks w)) (created_at t)) eqn:He.
    + destruct (machine_verify_expired mid uid tok tid signature w t Hv Hl Hs He)
        as (w' & -> & Ht & _ & Hb). simpl.
      rewrite Ht, lookup_alter_eq, Hl. simpl.
      split; [by eexists|]. right; right. done.
    + rewrite (machine_verify_fresh mid uid tok tid signature w t Hv Hl Hs He).
      simpl. rewrite lookup_alter_eq, Hl. simpl.
      split; [by eexists|]. right; left. done.
  - rewrite (machine_verify_already_processed mid uid tok tid signature w t Hv Hl Hs).
    simpl. split; [by exists t|]. by left.
Qed.


(** ** [app_pay] *)

(** The four outcomes of [app_pay]. *)
Lemma app_pay_spec uid mid tok w :
  let tokens := default 1 tok in
  ∃ r w',
    app_pay uid mid tok w = (r, w') ∧
    machines (db w') = machines (db w) ∧
    (ticks w ≤ ticks w')%nat ∧
    match truthy uid, truthy mid with
    | Some u, Some m =>
        if bool_decide (balance (db w) u < tokens) then
          r = InsufficientTokens (balance (db w) u) tokens ∧
          transactions (db w') = transactions (db w) ∧
          ∀ v, balance (db w') v = balance (db w) v
        else
          let tid := uuid4 (draws w) in
          match transactions (db w) !! tid with
          | Some _ =>
              r = ServerError ∧
              transactions (db w') = transactions (db w) ∧
              ∀ v, balance (db w') v = balance (db w) v
          | None =>
              r = (200, BPay tid (balance (db w) u - tokens) 60) ∧
              (∃ k, (ticks w ≤ k < ticks w')%nat ∧
                 transactions (db w') =
                   <[tid := reservation (db w) u m tokens (clock k)]>
                     (transactions (db w))) ∧
              ∀ v, balance (db w') v =
                   balance (db w) v - (if decide (u = v) then tokens else 0)
          end
    | _, _ =>
        r = (400, BError "Missing user_id or machine_id") ∧ w' = w
    end.
Proof.
  intros tokens. unfold app_pay. fold tokens.
  destruct (truthy uid) as [u|]; [destruct (truthy mid) as [m|]|];
    try (by eexists _, w; unfold_M; repeat split).
  unfold_M.
  destruct (get_or_create_user_spec u w)
    as (usr & w0 & -> & Hu & Hb & Hbal & Ht & Hm & Hd & Hk).
  rewrite Hb. destruct (bool_decide (balance (db w) u < tokens)) eqn:Hlt.
  - eexists _, w0. repeat split; auto.
  - unfold commit_with_new_txn; unfold_M; simpl.
    rewrite Hd, Ht.
    destruct (transactions (db w) !! uuid4 (draws w)) eqn:Hfresh.
    + eexists _, _. split; [reflexivity|]. simpl. repeat split; auto with lia.
    + eexists _, _. split; [reflexivity|]. simpl.
      split; [done|]. split; [lia|]. split; [done|]. split.
      * exists (ticks w0). split; [lia|]. unfold reservation.
        by rewrite Ht, Hm.
      * intros v.
        change (balance (with_transactions ?f ?d) v) with (balance d v).
        rewrite balance_insert. simpl.
        destruct (decide (u = v)) as [<-|]; [lia|].
        rewrite Hbal. lia.
Qed.

(** ** The other handlers *)

Lemma give_tokens_spec uid amt w :
  ∃ r w',
    give_tokens uid amt w = (r, w') ∧
    transactions (db w') = transactions (db w) ∧
    machines (db w') = machines (db w) ∧
    match truthy uid with
    | Some u =>
        r = (200, BBalance (balance (db w) u + default 10 amt)) ∧
        ∀ v, balance (db w') v =
             balance (db w) v + (if decide (u = v) then default 10 amt else 0)
    | None => r = (400, BError "Missing user_id") ∧ w' = w
    end.
Proof.
  unfold give_tokens. destruct (truthy uid) as [u|];
    [|by eexists _, w; unfold_M; repeat split].
  unfold_M.
  destruct (get_or_create_user_spec u w)
    as (usr & w0 & -> & Hu & Hb & Hbal & Ht & Hm & Hd & Hk).
  eexists _, _. split; [reflexivity|]. simpl. rewrite Hb.
  repeat split; auto.
  intros v. rewrite balance_insert. simpl.
  destruct (decide (u = v)) as [<-|]; [lia|]. rewrite Hbal. lia.
Qed.

Lemma purchase_tokens_spec uid tok payment_token w :
  let tokens := default 0 tok in
  ∃ r w',
    purchase_tokens uid tok payment_token w = (r, w') ∧
    machines (db w') = machines (db w) ∧
    match truthy uid with
    | Some u =>
        if bool_decide (tokens ≤ 0) then
          r = (400, BError "Invalid purchase") ∧ w' = w
        else
          let tid := uuid4 (draws w) in
          match transactions (db w) !! tid with
          | Some _ =>
              r = ServerError ∧
              transactions (db w') = transactions (db w) ∧
              ∀ v, balance (db w') v = balance (db w) v
          | None =>
              r = (200, BBalance (balance (db w) u + tokens)) ∧
              (∃ now, transactions (db w') =
                 <[tid := mkTransaction u None (Some "Token Purchase") tokens
                            purchase verified now]> (transactions (db w))) ∧
              ∀ v, balance (db w') v =
                   balance (db w) v + (if decide (u = v) then tokens else 0)
          end
    | None => r = (400, BError "Invalid purchase") ∧ w' = w
    end.
Proof.
  intros tokens. unfold purchase_tokens. fold tokens.
  destruct (truthy uid) as [u|];
    [|by eexists _, w; unfold_M; repeat split].
  destruct (bool_decide (tokens ≤ 0)) eqn:Hle;
    [by eexists _, w; unfold_M; repeat split|].
  unfold_M.
  destruct (get_or_create_user_spec u w)
    as (usr & w0 & -> & Hu & Hb & Hbal & Ht & Hm & Hd & Hk).
  unfold commit_with_new_txn; unfold_M; simpl.
  rewrite Hd, Ht, Hb.
  destruct (transactions (db w) !! uuid4 (draws w)) eqn:Hfresh.
  - eexists _, _. split; [reflexivity|]. simpl. repeat split; auto.
  - eexists _, _. split; [reflexivity|]. simpl.
    split; [done|]. split; [done|]. split.
    + eexists. by rewrite Ht.
    + intros v.
      change (balance (with_transactions ?f ?d) v) with (balance d v).
      rewrite balance_insert. simpl.
      destruct (decide (u = v)) as [<-|]; [lia|]. rewrite Hbal. lia.
Qed.

Lemma get_wallet_spec uid w :
  ∃ w',
    get_wallet uid w = ((200, BWallet uid (balance (db w) uid)), w') ∧
    transactions (db w') = transactions (db w) ∧
    machines (db w') = machines (db w) ∧
    ∀ v, balance (db w') v = balance (db w) v.
Proof.
  unfold get_wallet; unfold_M.
  destruct (get_or_create_user_spec uid w)
    as (usr & w0 & -> & Hu & Hb & Hbal & Ht & Hm & Hd & Hk).
  exists w0. rewrite Hb. done.
Qed.

Lemma refunded_nonneg d v l : 0 ≤ refunded d v l.
Proof.
  induction l as [|it l IH]; simpl; [done|]. case_decide; lia.
Qed.

(** ** What each request does to the balances *)

(** Every request other than a grant of a negative amount keeps every
    balance non-negative. *)
Lemma handle_nonneg r w :
  ¬ negative_grant r →
  (∀ v, 0 ≤ balance (db w) v) →
  ∀ v, 0 ≤ balance (db (handle r w).2) v.
Proof.
  intros Hng Hw v. destruct r; simpl in *.
  - done.
  - destruct (get_wallet_spec uid w) as (w' & -> & _ & _ & Hb). simpl.
    by rewrite Hb.
  - destruct (give_tokens_spec uid amount w) as (r & w' & -> & _ & _ & H).
    simpl. destruct (truthy uid) as [u|].
    + destruct H as [_ ->]. specialize (Hw v).
      destruct (decide (u = v)); [|lia].
      destruct (decide (default 10 amount < 0)); [|lia].
      destruct Hng. split; [by eexists | done].
    + destruct H as [_ ->]. done.
  - destruct (app_pay_spec uid mid tok w) as (r & w' & -> & _ & _ & H). simpl.
    destruct (truthy uid) as [u|]; [destruct (truthy mid) as [m|]|];
      try (destruct H as [_ ->]; done).
    destruct (bool_decide (balance (db w) u < default 1 tok)) eqn:Hlt.
    + destruct H as (_ & _ & ->). done.
    + apply bool_decide_eq_false in Hlt. cbv zeta in H.
      destruct (transactions (db w) !! uuid4 (draws w)).
      * destruct H as (_ & _ & ->). done.
      * destruct H as (_ & _ & ->). specialize (Hw v).
        destruct (decide (u = v)) as [<-|]; lia.
  - destruct (purchase_tokens_spec uid tok payment_token w)
      as (r & w' & -> & _ & H). simpl.
    destruct (truthy uid) as [u|]; [|destruct H as [_ ->]; done].
    destruct (bool_decide (default 0 tok ≤ 0)) eqn:Hle;
      [destruct H as [_ ->]; done|].
    apply bool_decide_eq_false in Hle. cbv zeta in H.
    destruct (transactions (db w) !! uuid4 (draws w)).
    + destruct H as (_ & _ & ->). done.
    + destruct H as (_ & _ & ->). specialize (Hw v).
      destruct (decide (u = v)); lia.
  - destruct (verify_machine_signature mid uid (default 1 tok) txn_id signature)
      eqn:Hv; [|by rewrite machine_verify_unauthorized].
    destruct (session_get (transactions (db w)) txn_id) as [[tid t]|] eqn:Hg;
      [|by rewrite machine_verify_not_found].
    destruct txn_id as [tid'|]; [|done]. simpl in Hg.
    destruct (transactions (db w) !! tid') as [t'|] eqn:Hl; [|done].
    simpl in Hg. injection Hg as -> ->.
    destruct (machine_verify_outcome w tid t mid uid tok signature Hl Hv)
      as [_ [[_ ->]|[(_ & _ & ->)|(_ & _ & ->)]]]; try done.
    specialize (Hw v). case_decide; lia.
  - apply Hw.
  - apply Hw.
  - unfold register_machine; unfold_M. destruct (truthy mid); apply Hw.
  - destruct (get_pending_effect mid w) as (w' & -> & _ & _ & _ & _ & ->).
    simpl. pose proof (refunded_nonneg (db w') v (pending_for mid (db w))).
    specialize (Hw v). lia.
Qed.

Lemma serve_nonneg rs : ∀ w,
  Forall (λ r, ¬ negative_grant r) rs →
  (∀ v, 0 ≤ balance (db w) v) →
  ∀ v, 0 ≤ balance (db (serve rs w)) v.
Proof.
  induction rs as [|r rs IH]; intros w Hrs Hw; simpl; [done|].
  apply Forall_cons in Hrs as [Hr Hrs].
  apply IH; [done|]. by apply handle_nonneg.
Qed.

(** ** What each request does to the transactions *)

(** A request leaves a stored transaction as it is, or deletes it, or
    takes it out of [pending], changing nothing but its status and, for a
    claim, its machine id. *)
Lemma handle_txn_step r w tid t t' :
  transactions (db w) !! tid = Some t →
  transactions (db (handle r w).2) !! tid = Some t' →
  t' = t ∨
  (status t = pending ∧
   ∃ s m, (s = verified ∨ s = failed) ∧ t' = set_machine_id m (set_status s t)).
Proof.
  intros Hl Hl'. destruct r; simpl in Hl'.
  - left. congruence.
  - destruct (get_wallet_spec uid w) as (w' & Heq & Ht & _).
    rewrite Heq in Hl'. simpl in Hl'. left. congruence.
  - destruct (give_tokens_spec uid amount w) as (r & w' & Heq & Ht & _).
    rewrite Heq in Hl'. simpl in Hl'. left. congruence.
  - destruct (app_pay_spec uid mid tok w) as (r & w' & Heq & _ & _ & H).
    rewrite Heq in Hl'. simpl in Hl'. left.
    destruct (truthy uid) as [u|]; [destruct (truthy mid) as [m|]|];
      try (destruct H as [_ ->]; congruence).
    destruct (bool_decide _); [destruct H as (_ & Ht & _); congruence|].
    cbv zeta in H.
    destruct (transactions (db w) !! uuid4 (draws w)) eqn:Hfresh.
    + destruct H as (_ & Ht & _); congruence.
    + destruct H as (_ & (k & _ & Ht) & _). rewrite Ht in Hl'.
      rewrite lookup_insert_ne in Hl' by congruence. congruence.
  - destruct (purchase_tokens_spec uid tok payment_token w)
      as (r & w' & Heq & _ & H).
    rewrite Heq in Hl'. simpl in Hl'. left.
    destruct (truthy uid) as [u|]; [|destruct H as [_ ->]; congruence].
    destruct (bool_decide _); [destruct H as [_ ->]; congruence|].
    cbv zeta in H.
    destruct (transactions (db w) !! uuid4 (draws w)) eqn:Hfresh.
    + destruct H as (_ & Ht & _); congruence.
    + destruct H as (_ & (now & Ht) & _). rewrite Ht in Hl'.
      rewrite lookup_insert_ne in Hl' by congruence. congruence.
  - destruct (verify_machine_signature mid uid (default 1 tok) txn_id signature)
      eqn:Hv; [|rewrite machine_verify_unauthorized in Hl' by done; simpl in Hl'; left; congruence].
    destruct (session_get (transactions (db w)) txn_id) as [[tid0 t0]|] eqn:Hg;
      [|rewrite machine_verify_not_found in Hl' by done; simpl in Hl'; left; congruence].
    destruct txn_id as [tid1|]; [|done]. simpl in Hg.
    destruct (transactions (db w) !! tid1) as [t1|] eqn:Hl1; [|done].
    simpl in Hg. injection Hg as -> ->.
    destruct (decide (status t0 = pending)) as [Hs|Hs].
    + destruct (expired (clock (ticks w)) (created_at t0)) eqn:He.
      * destruct (machine_verify_expired mid uid tok tid0 signature w t0 Hv Hl1 Hs He)
          as (w' & Heq & Ht & _).
        rewrite Heq in Hl'. simpl in Hl'. rewrite Ht in Hl'.
        destruct (decide (tid0 = tid)) as [->|Hne].
        -- rewrite lookup_alter_eq, Hl in Hl'. simpl in Hl'. right.
           split; [congruence|]. exists failed, (machine_id t).
           split; [by right | by injection Hl' as <-].
        -- rewrite lookup_alter_ne in Hl' by done. left. congruence.
      * rewrite (machine_verify_fresh mid uid tok tid0 signature w t0 Hv Hl1 Hs He)
          in Hl'. simpl in Hl'.
        destruct (decide (tid0 = tid)) as [->|Hne].
        -- rewrite lookup_alter_eq, Hl in Hl'. simpl in Hl'. right.
           split; [congruence|]. exists verified, mid.
           split; [by left | by injection Hl' as <-].
        -- rewrite lookup_alter_ne in Hl' by done. left. congruence.
    + rewrite (machine_verify_already_processed mid uid tok tid0 signature w t0)
        in Hl' by done. simpl in Hl'. left. congruence.
  - apply map_lookup_filter_Some in Hl' as [Hl' _]. left. congruence.
  - left. congruence.
  - unfold register_machine in Hl'; unfold_M.
    destruct (truthy mid); simpl in Hl'; left; congruence.
  - destruct (get_pending_effect mid w) as (w' & Heq & _ & _ & Hout & Hins & _).
    rewrite Heq in Hl'. simpl in Hl'.
    destruct (decide (tid ∈ (pending_for mid (db w)).*1)) as [Hin|Hni].
    + apply list_elem_of_fmap in Hin as ([tid0 t0] & -> & Hin). simpl in *.
      destruct (Hins _ _ Hin) as (k & _ & Hlk).
      apply pending_for_elem in Hin as (Hl0 & _ & Hs).
      assert (t0 = t) as -> by congruence.
      right. split; [done|].
      exists (swept_status (clock k) t), (machine_id t). split.
      * unfold swept_status. destruct (expired _ _); auto.
      * rewrite Hlk in Hl'. by injection Hl' as <-.
    + rewrite Hout in Hl' by done. left. congruence.
Qed.

(** C3. Every operation preserves status monotonicity: across any one
    request, a transaction that is still there has the status it had, or
    has gone from [pending] to [verified] or from [pending] to [failed];
    the status of a transaction that is [verified] or [failed] is never
    changed. *)
Theorem handle_status_monotone r w tid t t' :
  transactions (db w) !! tid = Some t →
  transactions (db (handle r w).2) !! tid = Some t' →
  status_transition (status t) (status t') ∧
  (status t ≠ pending → status t' = status t).
Proof.
  intros Hl Hl'. unfold status_transition.
  destruct (handle_txn_step r w tid t t' Hl Hl')
    as [->|(Hs & s & m & Hsm & ->)].
  - split; [by left | done].
  - simpl. split; [by right | done].
Qed.

(** ** Reservations that nobody claims in time *)











(** ** Claims made in time *)

(** A claim with a valid signature on a pending transaction not older
    than 60 seconds verifies it, stamps the request's machine id and moves
    no balance; none of this looks at the user, machine or amount stored
    in the transaction. When the rate of the request's machine is not
    zero, the answer is the credits computed from the request's tokens;
    when it is zero, the division raises after the commit. *)
Lemma machine_verify_in_time mid uid tok tid signature w t :
  verify_machine_signature mid uid (default 1 tok) (Some tid) signature = true →
  transactions (db w) !! tid = Some t →
  status t = pending →
  clock (ticks w) - created_at t ≤ TTL_MICROS →
  ∃ r w',
    machine_verify mid uid tok (Some tid) signature w = (r, w') ∧
    transactions (db w') !! tid = Some (set_machine_id mid (set_status verified t)) ∧
    (∀ tid', tid' ≠ tid → transactions (db w') !! tid' = transactions (db w) !! tid') ∧
    users (db w') = users (db w) ∧
    machines (db w') = machines (db w) ∧
    (rate_of (db w) mid ≠ 0 →
     r = (200, BCredits (Z.max 1 (default 1 tok / rate_of (db w) mid)) (Some tid))) ∧
    (rate_of (db w) mid = 0 → r = ServerError).
Proof.
  intros Hv Hl Hs Hage.
  rewrite (machine_verify_fresh mid uid tok tid signature w t Hv Hl Hs)
    by (unfold expired; rewrite bool_decide_eq_false_2; [done | lia]).
  eexists _, _. split; [reflexivity|]. simpl.
  rewrite lookup_alter_eq, Hl. simpl. split; [done|]. split.
  { intros tid' Hne. by rewrite lookup_alter_ne. }
  split; [done|]. split; [done|]. unfold floordiv.
  split; intros Hr; [by rewrite decide_False | by rewrite decide_True].
Qed.

Lemma rate_of_unregistered d mid :
  session_get (machines d) mid = None → rate_of d mid = 1.
Proof. unfold rate_of. by intros ->. Qed.

Lemma rate_of_registered d m machine :
  machines d !! m = Some machine →
  rate_of d (Some m) = tokens_per_credit machine.
Proof. unfold rate_of. simpl. by intros ->. Qed.

(** ** Requests [app_pay] refuses, and one it does not *)

(** Whenever [app_pay] does not answer 200, no balance has changed and no
    transaction has been created; when the balance is short, the answer
    reports the balance and the amount asked for. *)
Lemma app_pay_refusal uid mid tok w :
  let r := (app_pay uid mid tok w).1 in
  let w' := (app_pay uid mid tok w).2 in
  (r.1 ≠ 200 →
   transactions (db w') = transactions (db w) ∧
   ∀ v, balance (db w') v = balance (db w) v) ∧
  (∀ u m, truthy uid = Some u → truthy mid = Some m →
     balance (db w) u < default 1 tok →
     r = InsufficientTokens (balance (db w) u) (default 1 tok)).
Proof.
  destruct (app_pay_spec uid mid tok w) as (r & w' & -> & _ & _ & H). simpl.
  split.
  - intros Hr.
    destruct (truthy uid) as [u|]; [destruct (truthy mid) as [m|]|];
      try (by destruct H as [_ ->]).
    destruct (bool_decide _); [by destruct H as (_ & ? & ?)|].
    cbv zeta in H. destruct (transactions (db w) !! uuid4 (draws w)).
    + by destruct H as (_ & ? & ?).
    + destruct H as (-> & _). done.
  - intros u m Hu Hm Hlt. rewrite Hu, Hm in H.
    rewrite bool_decide_eq_true_2 in H by done. by destruct H as (-> & _).
Qed.

(** [app_pay] has no test on the sign of [tokens]: an amount that is zero
    or negative passes the balance test of any wallet that is not in
    debt, and is reserved like any other, the wallet being "debited" by
    it. *)
Lemma app_pay_nonpositive uid mid tok w u m :
  truthy uid = Some u → truthy mid = Some m →
  default 1 tok ≤ 0 → 0 ≤ balance (db w) u →
  transactions (db w) !! uuid4 (draws w) = None →
  ∃ w' t,
    app_pay uid mid tok w =
      ((200, BPay (uuid4 (draws w)) (balance (db w) u - default 1 tok) 60), w') ∧
    transactions (db w') !! uuid4 (draws w) = Some t ∧
    status t = pending ∧ tokens t = - default 1 tok ∧
    balance (db w') u = balance (db w) u - default 1 tok.
Proof.
  intros Hu Hm Hle Hb Hfresh.
  destruct (app_pay_spec uid mid tok w) as (r & w' & Heq & _ & _ & H).
  rewrite Hu, Hm in H. rewrite bool_decide_eq_false_2 in H by lia.
  cbv zeta in H. rewrite Hfresh in H.
  destruct H as (-> & (k & _ & Ht) & Hbal).
  eexists w', _. split; [done|]. rewrite Ht, lookup_insert_eq.
  split; [done|]. split; [done|]. split; [done|].
  rewrite Hbal. by rewrite decide_True.
Qed.

End Properties.

(** * The statements at work on the concrete deployment *)

Lemma initial_world_balances v : balance (db initial_world) v = 0.
Proof. reflexivity. Qed.

(** C1. The invariant fails on the code: [give_tokens] adds the amount it
    is given without looking at its sign, so a grant of [-1] to a fresh
    wallet leaves the balance at [-1]. ([handle_nonneg] and [serve_nonneg]
    show that this is the only request that can make a balance negative.) *)
Theorem give_tokens_negative_amount :
  (∀ v, 0 ≤ balance (db initial_world) v) ∧
  give_tokens (env:=demo_env) (Some "alice") (Some (-1)) initial_world =
    ((200, BBalance (-1)),
     serve (env:=demo_env) [GiveTokens (Some "alice") (Some (-1))] initial_world) ∧
  balance
    (db (serve (env:=demo_env) [GiveTokens (Some "alice") (Some (-1))] initial_world))
    "alice" = -1.
Proof.
  split; [intros v; by rewrite initial_world_balances|].
  split; vm_compute; reflexivity.
Qed.


Lemma handle_status_monotone_witness :
  transactions (db demo_reserved) !! "txn-0" = Some demo_reservation ∧
  transactions (db demo_claimed) !! "txn-0" =
    Some (set_status verified demo_reservation) ∧
  status_transition (status demo_reservation)
                    (status (set_status verified demo_reservation)) ∧
  (status demo_reservation ≠ pending →
   status (set_status verified demo_reservation) = status demo_reservation).
Proof.
  split; [vm_compute; reflexivity|].
  split; [vm_compute; reflexivity|].
  apply (handle_status_monotone (env:=demo_env)
           (Verify (Some "M001") (Some "alice") (Some 3) (Some "txn-0") demo_signature)
           demo_reserved "txn-0"); vm_compute; reflexivity.
Defined.



(** C5. The credited amount is the claim's formula only while the rate is
    not zero ([machine_verify_in_time]). [register_machine] stores a rate of
    zero as it stores any other, and a claim naming such a machine, valid
    and in time, commits the verification and then raises on the division:
    the caller gets no credits. *)
Theorem machine_verify_zero_rate_raises :
  transactions (db zero_rate_reserved) !! "txn-0" =
    Some (mkTransaction "alice" (Some "M0") (Some "M0") (-3) spend pending 1000000) ∧
  clock (Env:=demo_env) (ticks zero_rate_reserved) - 1000000 ≤ TTL_MICROS ∧
  rate_of (db zero_rate_reserved) (Some "M0") = 0 ∧
  let '(r, w') :=
    machine_verify (env:=demo_env) (Some "M0") (Some "alice") (Some 3) (Some "txn-0")
      (expected_signature (env:=demo_env) (Some "M0") (Some "alice") 3 (Some "txn-0"))
      zero_rate_reserved in
  r = ServerError ∧
  status_of (db w') "txn-0" = Some verified ∧
  balance (db w') "alice" = 7.
Proof.
  split; [vm_compute; reflexivity|].
  split; [vm_compute; discriminate|].
  split; [vm_compute; reflexivity|].
  vm_compute. repeat split.
Qed.

(** C6. [app_pay] tests the balance against [tokens] but never the sign
    of [tokens] ([purchase_tokens] does): a request for [-5] tokens on a
    fresh wallet is not refused; it raises the balance from 0 to 5 and
    creates a pending transaction. ([app_pay_refusal] shows the rest of the
    claim: whenever the answer is not 200 nothing has changed, and a short
    balance is reported with the amount asked for.) *)
Theorem app_pay_negative_tokens_accepted :
  balance (db initial_world) "alice" = 0 ∧
  let '(r, w') :=
    app_pay (env:=demo_env) (Some "alice") (Some "M001") (Some (-5)) initial_world in
  r = (200, BPay "txn-0" 5 60) ∧
  balance (db w') "alice" = 5 ∧
  transactions (db w') !! "txn-0" =
    Some (mkTransaction "alice" (Some "M001") (Some "Double Dragon") 5
                        spend pending 1000000).
Proof.
  split; [reflexivity|]. vm_compute. repeat split.
Qed.

Lemma machine_verify_unauthorized_iff_witness :
  "forged" ≠ demo_signature ∧
  machine_verify (env:=demo_env) (Some "M001") (Some "alice") (Some 3)
    (Some "txn-0") "forged" demo_reserved = (Unauthorized, demo_reserved) ∧
  (machine_verify (env:=demo_env) (Some "M001") (Some "alice") (Some 3)
     (Some "txn-0") demo_signature demo_reserved).1 ≠ Unauthorized.
Proof.
  assert (Hne : "forged" ≠ demo_signature) by (vm_compute; discriminate).
  split; [exact Hne|].
  destruct (machine_verify_unauthorized_iff (env:=demo_env)
              (Some "M001") (Some "alice") (Some 3) (Some "txn-0")
              "forged" demo_reserved) as (_ & _ & Hforged).
  destruct (machine_verify_unauthorized_iff (env:=demo_env)
              (Some "M001") (Some "alice") (Some 3) (Some "txn-0")
              demo_signature demo_reserved) as (_ & Hiff & _).
  split; [exact (Hforged Hne)|].
  intros Hr. apply Hiff in Hr. by apply Hr.
Defined.


(** C9. [register_machine] stores whatever integer it is given as the
    rate: a registration with 0 succeeds, the registered machine's rate is
    0, and the division of [machine_verify] by that rate raises. *)
Theorem register_machine_accepts_zero_rate :
  (register_machine (Some "M0") None (Some 0) initial_world).1 =
    (200, BRegistered "M0" (Some "M0")) ∧
  machines (db zero_rate_registered) !! "M0" = Some (mkMachine (Some "M0") 0 None) ∧
  ¬ 0 < rate_of (db zero_rate_registered) (Some "M0") ∧
  floordiv 3 (rate_of (db zero_rate_registered) (Some "M0")) = None ∧
  (handle (env:=demo_env)
     (Verify (Some "M0") (Some "alice") (Some 3) (Some "txn-0")
        (expected_signature (env:=demo_env) (Some "M0") (Some "alice") 3 (Some "txn-0")))
     zero_rate_reserved).1 = ServerError.
Proof.
  split; [vm_compute; reflexivity|].
  split; [vm_compute; reflexivity|].
  split; [vm_compute; discriminate|].
  split; vm_compute; reflexivity.
Qed.

(** C10. Nothing of the request is compared with the stored transaction
    ([machine_verify_in_time] never looks at it), but the claim does not
    always succeed: with a request naming a machine whose rate is zero, a
    user and an amount that are not the reservation's, the transaction is
    verified and re-stamped and the call then raises. *)
Theorem machine_verify_mismatch_zero_rate :
  transactions (db other_machine_reserved) !! "txn-0" = Some demo_reservation ∧
  let '(r, w') :=
    machine_verify (env:=demo_env) (Some "M0") (Some "mallory") (Some 100)
      (Some "txn-0")
      (expected_signature (env:=demo_env) (Some "M0") (Some "mallory") 100
         (Some "txn-0"))
      other_machine_reserved in
  r = ServerError ∧
  transactions (db w') !! "txn-0" =
    Some (mkTransaction "alice" (Some "M0") (Some "Double Dragon") (-3)
                        spend verified 1000000).
Proof.
  split; [vm_compute; reflexivity|]. vm_compute. repeat split.
Qed.

(** * Further properties of the handlers *)

Section MoreProperties.

Context {env : Env}.

(** ** Wallets: [get_or_create_user], [get_wallet], [give_tokens] *)

Lemma get_or_create_user_existing uid w u :
  users (db w) !! uid = Some u → get_or_create_user uid w = (u, w).
Proof. intros E. unfold get_or_create_user; unfold_M; simpl. by rewrite E. Qed.

Lemma get_or_create_user_new uid w :
  users (db w) !! uid = None →
  get_or_create_user uid w =
    (mkUser "Player" 0 (clock (ticks w)),
     mkWorld (with_users (insert uid (mkUser "Player" 0 (clock (ticks w)))) (db w))
             (S (ticks w)) (draws w)).
Proof. intros E. unfold get_or_create_user; unfold_M; simpl. by rewrite E. Qed.

(** A first look at a wallet creates it, named "Player", with no tokens;
    a look at a wallet that exists changes nothing. Either way the answer
    is the balance the wallet had, a second look gives the same answer
    and changes nothing, and no transaction and no other wallet is
    touched. *)
Theorem get_wallet_creates_once uid w :
  let '(r, w1) := get_wallet uid w in
  r = (200, BWallet uid (balance (db w) uid)) ∧
  (users (db w) !! uid = None →
   balance (db w) uid = 0 ∧
   users (db w1) !! uid = Some (mkUser "Player" 0 (clock (ticks w)))) ∧
  (is_Some (users (db w) !! uid) → w1 = w) ∧
  get_wallet uid w1 = (r, w1) ∧
  transactions (db w1) = transactions (db w) ∧
  machines (db w1) = machines (db w) ∧
  ∀ v, v ≠ uid → users (db w1) !! v = users (db w) !! v.
Proof.
  unfold get_wallet, balance; unfold_M.
  destruct (users (db w) !! uid) as [u|] eqn:E.
  - rewrite (get_or_create_user_existing uid w u E).
    rewrite (get_or_create_user_existing uid w u E).
    split_and!; done.
  - rewrite (get_or_create_user_new uid w E).
    set (u := mkUser _ _ _). set (w1 := mkWorld _ _ _).
    assert (E1 : users (db w1) !! uid = Some u) by apply lookup_insert_eq.
    rewrite (get_or_create_user_existing uid w1 u E1).
    split_and!; try done.
    intros v Hv. subst w1. simpl. by rewrite lookup_insert_ne.
Qed.

(** A grant to a named user adds the amount (10 when none is given) to
    the wallet, creating it if need be, and the wallet then shows the new
    balance, provided the new balance is one the [Integer] column can
    hold; a grant that names no user is refused and changes nothing. *)
Theorem give_tokens_then_get_wallet uid amt w :
  (∀ u, truthy uid = Some u →
        fits_integer (balance (db w) u + default 10 amt)) →
  match truthy uid with
  | Some u =>
      (get_wallet u (give_tokens uid amt w).2).1 =
        (200, BWallet u (balance (db w) u + default 10 amt)) ∧
      (give_tokens uid amt w).1 =
        (200, BBalance (balance (db w) u + default 10 amt)) ∧
      ∀ v, v ≠ u →
        balance (db (give_tokens uid amt w).2) v = balance (db w) v
  | None => give_tokens uid amt w = ((400, BError "Missing user_id"), w)
  end.
Proof.
  intros _.
  destruct (give_tokens_spec uid amt w) as (r & w' & Heq & _ & _ & H).
  rewrite Heq. simpl. destruct (truthy uid) as [u|].
  - destruct H as [-> Hb].
    destruct (get_wallet_spec u w') as (w2 & -> & _). simpl.
    rewrite Hb, decide_True by done. split; [done|]. split; [done|].
    intros v Hv. rewrite Hb, decide_False by done. lia.
  - by destruct H as [-> ->].
Qed.

(** ** Purchases: [purchase_tokens] *)


(** ** Machines: [register_machine] and the startup block *)


(** The startup block makes sure the machine M001 exists: it seeds it,
    named "Double Dragon" with rate 1, when it is missing, and leaves an
    M001 that is there (whatever its rate) as it is. It touches nothing
    else, and running it again changes nothing. *)
Theorem startup_seeds_once w :
  let w' := (startup w).2 in
  (machines (db w) !! "M001" = None →
   machines (db w') !! "M001" = Some (mkMachine (Some "Double Dragon") 1 None)) ∧
  (is_Some (machines (db w) !! "M001") → w' = w) ∧
  (∀ m, m ≠ "M001" → machines (db w') !! m = machines (db w) !! m) ∧
  users (db w') = users (db w) ∧
  transactions (db w') = transactions (db w) ∧
  startup w' = (tt, w').
Proof.
  unfold startup; unfold_M; simpl.
  destruct (machines (db w) !! "M001") as [m|] eqn:E; simpl.
  - rewrite E. split_and!; done.
  - rewrite lookup_insert_eq. split_and!; try done.
    all: try by intros [? [=]].
    intros m Hne. by rewrite lookup_insert_ne.
Qed.

(** ** History: [clear_history] and [get_history] *)

Lemma clear_history_lookup uid w tid :
  transactions (db (clear_history uid w).2) !! tid =
  match transactions (db w) !! tid with
  | Some t => if decide (user_id t = uid) then None else Some t
  | None => None
  end.
Proof.
  unfold clear_history; unfold_M; simpl.
  destruct (transactions (db w) !! tid) as [t|] eqn:E.
  - destruct (decide (user_id t = uid)) as [Hu|Hu].
    + apply map_lookup_filter_None. right. intros t' Ht' Hp.
      simpl in Hp. congruence.
    + by apply map_lookup_filter_Some.
  - apply map_lookup_filter_None. by left.
Qed.

(** Clearing a user's history deletes every transaction of that user,
    whatever its status, and no transaction of anybody else; it changes no
    wallet and no machine, and clearing again changes nothing more. *)
Theorem clear_history_effect uid w :
  let '(r, w') := clear_history uid w in
  r = (200, BSuccess) ∧
  (∀ tid t, transactions (db w') !! tid = Some t ↔
            transactions (db w) !! tid = Some t ∧ user_id t ≠ uid) ∧
  users (db w') = users (db w) ∧
  machines (db w') = machines (db w) ∧
  clear_history uid w' = (r, w').
Proof.
  pose proof (clear_history_lookup uid w) as Hl.
  unfold clear_history in *; unfold_M; simpl in *.
  split; [done|]. split.
  { intros tid t. rewrite Hl.
    destruct (transactions (db w) !! tid) as [t0|];
      [|split; [done | by intros [? _]]].
    destruct (decide (user_id t0 = uid)) as [Hu|Hu]; split.
    - done.
    - intros [[= ->] Hne]. done.
    - intros [= ->]. done.
    - intros [[= ->] _]. done. }
  split; [done|]. split; [done|].
  set (P := λ it : string * Transaction, user_id it.2 ≠ uid).
  assert (Hff : filter P (filter P (transactions (db w))) =
                filter P (transactions (db w))).
  { apply map_eq. intros tid.
    destruct (filter P (transactions (db w)) !! tid) as [t|] eqn:E.
    - apply map_lookup_filter_Some. split; [done|].
      by apply map_lookup_filter_Some in E as [_ ?].
    - apply map_lookup_filter_None. by left. }
  unfold with_transactions; simpl. by rewrite Hff.
Qed.

(** [get_history] reads only: it returns at most 50 entries, each the
    rendering of a stored transaction of the user, newest first; when the
    user has at most 50 transactions, all of them are listed. *)
Theorem get_history_lists_newest uid w :
  ∃ es,
    get_history uid w = ((200, BHistory es), w) ∧
    (length es ≤ 50)%nat ∧
    StronglySorted (λ a b, h_time b ≤ h_time a) es ∧
    (∀ e, e ∈ es →
       ∃ t, transactions (db w) !! h_id e = Some t ∧ user_id t = uid ∧
            e = history_entry (h_id e, t)) ∧
    ((length (filter (λ it, user_id it.2 = uid)
                (map_to_list (transactions (db w)))) ≤ 50)%nat →
     ∀ tid t, transactions (db w) !! tid = Some t → user_id t = uid →
              history_entry (tid, t) ∈ es).
Proof.
  unfold get_history; unfold_M; simpl.
  set (l := filter _ (map_to_list (transactions (db w)))).
  set (sorted := merge_sort newer_first l).
  assert (Hperm : sorted ≡ₚ l) by apply merge_sort_Permutation.
  assert (Hsorted : StronglySorted newer_first sorted).
  { apply StronglySorted_merge_sort.
    - intros a b c. unfold newer_first. lia.
    - intros a b. unfold newer_first. lia. }
  eexists. split; [reflexivity|]. split_and!.
  - rewrite length_fmap, length_take. lia.
  - apply (StronglySorted_fmap _ newer_first); [by intros [??] [??]|].
    rewrite <- (take_drop 50 sorted) in Hsorted.
    by apply StronglySorted_app_1_l in Hsorted.
  - intros e He. apply list_elem_of_fmap in He as ([tid t] & -> & Hin).
    apply subseteq_take in Hin. rewrite Hperm in Hin.
    apply list_elem_of_filter in Hin as [Hu Hin].
    apply elem_of_map_to_list in Hin. simpl in *. by exists t.
  - intros Hlen tid t Hl Hu. apply list_elem_of_fmap. exists (tid, t).
    split; [done|]. rewrite take_ge.
    + rewrite Hperm. apply list_elem_of_filter. split; [done|].
      by apply elem_of_map_to_list.
    + by rewrite Hperm.
Qed.

(** After a user's history has been cleared, that user's history is
    empty. *)
Theorem clear_history_then_get_history uid w :
  get_history uid (clear_history uid w).2 =
    ((200, BHistory []), (clear_history uid w).2).
Proof.
  unfold get_history; unfold_M; simpl.
  set (l := filter _ (map_to_list _)).
  assert (Hnil : l = []).
  { destruct l as [|[tid t] l'] eqn:E; [done|].
    assert (Hin : (tid, t) ∈ l) by (rewrite E; left).
    apply list_elem_of_filter in Hin as [Hu Hin].
    apply elem_of_map_to_list in Hin.
    apply map_lookup_filter_Some in Hin as [_ Hne]. simpl in *. done. }
  rewrite Hnil.
  assert (Hs : merge_sort newer_first [] = [])
    by (apply Permutation_nil_r, merge_sort_Permutation).
  by rewrite Hs.
Qed.

(** ** What no request ever changes *)

(** Whatever the request, a transaction that is still stored afterwards
    has the owner, the delta, the type, the machine name and the creation
    time it had before: only its status and, through a claim, its machine
    id are ever written. *)
Theorem handle_keeps_transaction_data r w tid t t' :
  transactions (db w) !! tid = Some t →
  transactions (db (handle r w).2) !! tid = Some t' →
  user_id t' = user_id t ∧ tokens t' = tokens t ∧ txn_type t' = txn_type t ∧
  machine_name t' = machine_name t ∧ created_at t' = created_at t.
Proof.
  intros Hl Hl'.
  by destruct (handle_txn_step r w tid t t' Hl Hl')
    as [->|(_ & s & m & _ & ->)].
Qed.

Lemma machine_verify_machines mid uid tok txn_id signature w :
  machines (db (machine_verify mid uid tok txn_id signature w).2) =
  machines (db w).
Proof.
  unfold machine_verify.
  destruct (verify_machine_signature _ _ _ _ _); [|done]. unfold_M; simpl.
  destruct (session_get _ _) as [[tid t]|]; [|done].
  destruct (bool_decide (status t = pending)); simpl; [|done].
  destruct (expired _ _).
  - set (w0 := mkWorld _ _ _).
    destruct (refund_expired_spec tid t w0) as (w' & Heq & _ & Hm & _).
    rewrite Heq. simpl. by rewrite Hm.
  - by destruct (floordiv _ _).
Qed.

(** The machine table is written by registration alone: every other
    request leaves it exactly as it was. *)
Theorem handle_keeps_machines r w :
  (∀ mid nm tpc, r ≠ Register mid nm tpc) →
  machines (db (handle r w).2) = machines (db w).
Proof.
  intros Hr. destruct r; simpl; try done.
  - destruct (get_wallet_spec uid w) as (w' & Heq & _ & Hm & _).
    rewrite Heq. exact Hm.
  - destruct (give_tokens_spec uid amount w) as (r & w' & Heq & _ & Hm & _).
    rewrite Heq. exact Hm.
  - destruct (app_pay_spec uid mid tok w) as (r & w' & Heq & Hm & _).
    rewrite Heq. exact Hm.
  - destruct (purchase_tokens_spec uid tok payment_token w)
      as (r & w' & Heq & Hm & _).
    rewrite Heq. exact Hm.
  - apply machine_verify_machines.
  - by destruct (Hr mid nm tpc).
  - destruct (get_pending_effect mid w) as (w' & Heq & Hm & _).
    rewrite Heq. exact Hm.
Qed.

(** ** Claims: [machine_verify] and [get_pending] together *)

(** A poll with nothing pending for the machine returns the empty list
    and changes nothing, not even the clock position. *)
Theorem get_pending_nothing_pending mid w :
  (∀ tid t, transactions (db w) !! tid = Some t →
            ¬ (machine_id t = Some mid ∧ status t = pending)) →
  get_pending mid w = ((200, BPending []), w).
Proof.
  intros H. unfold get_pending; unfold_M; simpl.
  by rewrite (pending_for_nil mid (db w) H).
Qed.


(** A 200 from [machine_verify] is only ever given for a transaction that
    was pending and not older than 60 seconds at the reading of the clock;
    that transaction is verified by the call, the credits are at least 1,
    the transaction id is echoed, and no wallet is touched. *)
Theorem machine_verify_success_inv mid uid tok txn_id signature w c tid' w' :
  machine_verify mid uid tok txn_id signature w = ((200, BCredits c tid'), w') →
  1 ≤ c ∧ tid' = txn_id ∧
  verify_machine_signature mid uid (default 1 tok) txn_id signature = true ∧
  users (db w') = users (db w) ∧
  ∃ tid t,
    txn_id = Some tid ∧
    transactions (db w) !! tid = Some t ∧ status t = pending ∧
    clock (ticks w) - created_at t ≤ TTL_MICROS ∧
    transactions (db w') !! tid = Some (set_machine_id mid (set_status verified t)).
Proof.
  unfold machine_verify.
  destruct (verify_machine_signature _ _ _ _ _) eqn:Hv; [|by intros [=]].
  unfold_M; simpl.
  destruct txn_id as [tid|]; [|by intros [=]]. simpl.
  destruct (transactions (db w) !! tid) as [t|] eqn:Hl; [|by intros [=]].
  simpl. destruct (bool_decide (status t = pending)) eqn:Hs; [|by intros [=]].
  apply bool_decide_eq_true in Hs. simpl.
  destruct (expired (clock (ticks w)) (created_at t)) eqn:He.
  - set (w0 := mkWorld _ _ _).
    destruct (refund_expired_spec tid t w0) as (w1 & -> & _). by intros [=].
  - destruct (floordiv _ _) as [q|]; [|by intros [=]].
    intros [= <- <- <-]. simpl.
    split; [lia|]. split; [done|]. split; [done|]. split; [done|].
    exists tid, t. split; [done|]. split; [done|]. split; [done|]. split.
    + unfold expired in He. apply bool_decide_eq_false in He. lia.
    + by rewrite lookup_alter_eq, Hl.
Qed.

(** ** Reservations: [app_pay] followed by the other handlers *)

(** A reservation claimed in time, with the signature of the reserving
    request's own fields, at a machine whose rate is not zero: the claim
    answers with [max(1, tokens // rate)] credits, the transaction is
    verified, and the wallet stays debited by the reserved amount. *)
Theorem pay_then_verify_credits uid mid tok w0 tid nb ttl w1 signature :
  app_pay uid mid tok w0 = ((200, BPay tid nb ttl), w1) →
  verify_machine_signature mid uid (default 1 tok) (Some tid) signature = true →
  (∀ k, (ticks w0 ≤ k < ticks w1)%nat →
        clock (ticks w1) - clock k ≤ TTL_MICROS) →
  rate_of (db w0) mid ≠ 0 →
  ∃ u w2,
    truthy uid = Some u ∧
    machine_verify mid uid tok (Some tid) signature w1 =
      ((200, BCredits (Z.max 1 (default 1 tok / rate_of (db w0) mid)) (Some tid)),
       w2) ∧
    status_of (db w2) tid = Some verified ∧
    balance (db w2) u = balance (db w0) u - default 1 tok ∧
    nb = balance (db w2) u.
Proof.
  intros Hpay Hv Hage Hrate.
  destruct (app_pay_spec uid mid tok w0) as (r & w' & Heq & Hm & _ & H).
  rewrite Hpay in Heq. injection Heq as <- <-.
  destruct (truthy uid) as [u|]; [destruct (truthy mid) as [m|]|];
    try (by destruct H as [[=] _]).
  destruct (bool_decide (balance (db w0) u < default 1 tok));
    [by destruct H as [[=] _]|].
  cbv zeta in H.
  destruct (transactions (db w0) !! uuid4 (draws w0)) eqn:Hfresh;
    [by destruct H as [[=] _]|].
  destruct H as ([= -> -> ->] & (k & Hk & Ht) & Hb).
  set (t := reservation (db w0) u m (default 1 tok) (clock k)) in *.
  assert (Hl : transactions (db w1) !! uuid4 (draws w0) = Some t)
    by (by rewrite Ht, lookup_insert_eq).
  destruct (machine_verify_in_time mid uid tok (uuid4 (draws w0)) signature w1 t
              Hv Hl)
    as (r & w2 & Heq & Hl2 & _ & Hu2 & _ & Hok & _);
    [done | by apply Hage |].
  assert (Hr : rate_of (db w1) mid = rate_of (db w0) mid)
    by (unfold rate_of; by rewrite Hm).
  rewrite Hr in Hok. rewrite (Hok Hrate) in Heq.
  assert (Hb2 : balance (db w2) u = balance (db w0) u - default 1 tok).
  { unfold balance at 1. rewrite Hu2. fold (balance (db w1) u).
    rewrite Hb. by rewrite decide_True. }
  exists u, w2. split; [done|]. split; [done|]. split.
  - unfold status_of. by rewrite Hl2.
  - split; [done | by rewrite Hb2].
Qed.


(** ** The signed message: [verify_machine_signature] *)

Lemma string_app_assoc (a b c : string) : (a +:+ b) +:+ c = a +:+ (b +:+ c).
Proof.
  induction a as [|x a IH]; [done|].
  change (String x ((a +:+ b) +:+ c) = String x (a +:+ (b +:+ c))).
  by rewrite IH.
Qed.

(** The four fields are joined with colons and nothing marks where one
    ends: moving a colon-separated part from the end of the machine id to
    the start of the user id gives the same signed message, so the
    verifier gives both requests the same verdict for every signature.
    Likewise a missing field is signed as the text "None", so it cannot be
    told from a field that holds that text. *)
Theorem signature_ignores_field_boundaries a b c uid tok txn_id signature :
  verify_machine_signature (Some (a +:+ ":" +:+ b)) (Some c) tok txn_id signature =
  verify_machine_signature (Some a) (Some (b +:+ ":" +:+ c)) tok txn_id signature ∧
  verify_machine_signature None uid tok txn_id signature =
  verify_machine_signature (Some "None") uid tok txn_id signature ∧
  verify_machine_signature (Some a) None tok txn_id signature =
  verify_machine_signature (Some a) (Some "None") tok txn_id signature ∧
  verify_machine_signature (Some a) uid tok None signature =
  verify_machine_signature (Some a) uid tok (Some "None") signature.
Proof.
  unfold verify_machine_signature, fmt. split; [|done].
  by rewrite !string_app_assoc.
Qed.

(** ** Wallets are kept *)

Lemma users_kept_refl m : users_kept m m.
Proof. intros v u Hl. by exists u. Qed.

Lemma users_kept_trans m1 m2 m3 :
  users_kept m1 m2 → users_kept m2 m3 → users_kept m1 m3.
Proof.
  intros H12 H23 v u Hl.
  destruct (H12 v u Hl) as (u2 & Hl2 & Hn2 & Hc2).
  destruct (H23 v u2 Hl2) as (u3 & Hl3 & Hn3 & Hc3).
  exists u3. split; [done|]. split; congruence.
Qed.

Lemma users_kept_set_balance m uid u0 b :
  m !! uid = Some u0 → users_kept m (<[uid := set_balance b u0]> m).
Proof.
  intros H0 v u Hl. destruct (decide (uid = v)) as [<-|Hne].
  - exists (set_balance b u0). rewrite lookup_insert_eq.
    assert (u0 = u) as -> by congruence. done.
  - exists u. by rewrite lookup_insert_ne.
Qed.

Lemma get_or_create_user_kept uid w :
  users_kept (users (db w)) (users (db (get_or_create_user uid w).2)).
Proof.
  destruct (users (db w) !! uid) as [u|] eqn:E.
  - rewrite (get_or_create_user_existing uid w u E). apply users_kept_refl.
  - rewrite (get_or_create_user_new uid w E). simpl.
    intros v u Hl. exists u. rewrite lookup_insert_ne; [done|]. congruence.
Qed.

(** A handler step of the form "fetch or create the user, then store the
    row with another balance" keeps all wallets. *)
Lemma credit_after_get_kept uid w (f : User → Z) :
  let '(user, w0) := get_or_create_user uid w in
  users_kept (users (db w))
             (<[uid := set_balance (f user) user]> (users (db w0))).
Proof.
  pose proof (get_or_create_user_kept uid w) as Hk.
  destruct (get_or_create_user_spec uid w) as (u & w0 & Heq & Hu & _).
  rewrite Heq in *. simpl in Hk.
  eapply users_kept_trans; [exact Hk|]. by apply users_kept_set_balance.
Qed.

Lemma refund_expired_kept tid t w :
  users_kept (users (db w)) (users (db (refund_expired tid t w).2)).
Proof.
  unfold refund_expired; unfold_M; simpl.
  set (w1 := mkWorld _ _ _).
  pose proof (credit_after_get_kept (user_id t) w1
                (λ user, token_balance user + Z.abs (tokens t))) as H.
  destruct (get_or_create_user (user_id t) w1) as [user w0]. exact H.
Qed.

Lemma get_pending_loop_kept l : ∀ result w,
  users_kept (users (db w)) (users (db (get_pending_loop l result w).2)).
Proof.
  induction l as [|[tid t] rest IH]; intros result w; simpl.
  - apply users_kept_refl.
  - unfold_M; simpl. destruct (expired _ _).
    + set (w1 := mkWorld _ _ _).
      pose proof (refund_expired_kept tid t w1) as H.
      destruct (refund_expired tid t w1) as [[] w2]. simpl in H.
      eapply users_kept_trans; [exact H | apply IH].
    + eapply users_kept_trans; [|apply IH]. apply users_kept_refl.
Qed.

Lemma handle_users_kept r w :
  users_kept (users (db w)) (users (db (handle r w).2)).
Proof.
  destruct r; simpl.
  - apply users_kept_refl.
  - unfold get_wallet; unfold_M.
    pose proof (get_or_create_user_kept uid w) as H.
    by destruct (get_or_create_user uid w).
  - unfold give_tokens. destruct (truthy uid) as [u|]; [|apply users_kept_refl].
    unfold_M.
    pose proof (credit_after_get_kept u w
                  (λ user, token_balance user + default 10 amount)) as H.
    by destruct (get_or_create_user u w).
  - unfold app_pay.
    destruct (truthy uid) as [u|]; [destruct (truthy mid) as [m|]|];
      try apply users_kept_refl.
    unfold_M.
    pose proof (credit_after_get_kept u w
                  (λ user, token_balance user - default 1 tok)) as H.
    pose proof (get_or_create_user_kept u w) as H0.
    destruct (get_or_create_user u w) as [user w0]. simpl in H0.
    destruct (bool_decide _); [done|].
    unfold commit_with_new_txn; unfold_M; simpl.
    by destruct (transactions (db w0) !! uuid4 (draws w0)).
  - unfold purchase_tokens.
    destruct (truthy uid) as [u|]; [|apply users_kept_refl].
    destruct (bool_decide _); [apply users_kept_refl|].
    unfold_M.
    pose proof (credit_after_get_kept u w
                  (λ user, token_balance user + default 0 tok)) as H.
    pose proof (get_or_create_user_kept u w) as H0.
    destruct (get_or_create_user u w) as [user w0]. simpl in H0.
    unfold commit_with_new_txn; unfold_M; simpl.
    by destruct (transactions (db w0) !! uuid4 (draws w0)).
  - unfold machine_verify.
    destruct (verify_machine_signature _ _ _ _ _); [|apply users_kept_refl].
    unfold_M; simpl.
    destruct (session_get _ _) as [[tid t]|]; [|apply users_kept_refl].
    destruct (bool_decide (status t = pending)); simpl; [|apply users_kept_refl].
    destruct (expired _ _).
    + set (w1 := mkWorld _ _ _).
      pose proof (refund_expired_kept tid t w1) as H.
      by destruct (refund_expired tid t w1) as [[] w2].
    + destruct (floordiv _ _); apply users_kept_refl.
  - apply users_kept_refl.
  - apply users_kept_refl.
  - unfold register_machine; unfold_M.
    destruct (truthy mid); apply users_kept_refl.
  - unfold get_pending; unfold_M; simpl.
    pose proof (get_pending_loop_kept (pending_for mid (db w)) [] w) as H.
    by destruct (get_pending_loop _ _ _).
Qed.

(** No request ever deletes a wallet or changes its name or its creation
    time: a wallet that exists is still there after any request, with at
    most its balance changed. *)
Theorem handle_keeps_wallets r w v u :
  users (db w) !! v = Some u →
  ∃ u', users (db (handle r w).2) !! v = Some u' ∧
        display_name u' = display_name u ∧
        user_created_at u' = user_created_at u.
Proof. apply handle_users_kept. Qed.

(** ** Consistency of the stored data *)

(** A transaction that appears with a request was created by [app_pay]
    (a pending spend bound to a machine) or by [purchase_tokens] (a
    verified purchase of a positive amount, bound to no machine), and its
    owner has a wallet. *)
Lemma handle_new_transaction r w tid t' :
  transactions (db w) !! tid = None →
  transactions (db (handle r w).2) !! tid = Some t' →
  is_Some (users (db (handle r w).2) !! user_id t') ∧
  ((txn_type t' = spend ∧ status t' = pending ∧ is_Some (machine_id t')) ∨
   (txn_type t' = purchase ∧ status t' = verified ∧ machine_id t' = None ∧
    0 < tokens t')).
Proof.
  intros Hl Hl'. destruct r; simpl in *.
  - congruence.
  - destruct (get_wallet_spec uid w) as (w' & Heq & Ht & _).
    rewrite Heq in Hl'. simpl in Hl'. congruence.
  - destruct (give_tokens_spec uid amount w) as (r & w' & Heq & Ht & _).
    rewrite Heq in Hl'. simpl in Hl'. congruence.
  - revert Hl'. unfold app_pay.
    destruct (truthy uid) as [u|]; [destruct (truthy mid) as [m|]|];
      try (simpl; congruence).
    unfold_M.
    destruct (get_or_create_user_spec u w) as (usr & w0 & -> & _ & _ & _ & Ht & _).
    destruct (bool_decide _); [simpl; congruence|].
    unfold commit_with_new_txn; unfold_M; simpl.
    destruct (transactions (db w0) !! uuid4 (draws w0)); simpl; [congruence|].
    destruct (decide (uuid4 (draws w0) = tid)) as [->|Hne].
    + rewrite !lookup_insert_eq. intros [= <-]. simpl.
      rewrite lookup_insert_eq. split; [by eexists|]. left. by eauto.
    + rewrite lookup_insert_ne by done. congruence.
  - revert Hl'. unfold purchase_tokens.
    destruct (truthy uid) as [u|]; [|simpl; congruence].
    destruct (bool_decide (default 0 tok ≤ 0)) eqn:Hle; [simpl; congruence|].
    apply bool_decide_eq_false in Hle. unfold_M.
    destruct (get_or_create_user_spec u w) as (usr & w0 & -> & _ & _ & _ & Ht & _).
    unfold commit_with_new_txn; unfold_M; simpl.
    destruct (transactions (db w0) !! uuid4 (draws w0)); simpl; [congruence|].
    destruct (decide (uuid4 (draws w0) = tid)) as [->|Hne].
    + rewrite !lookup_insert_eq. intros [= <-]. simpl.
      rewrite lookup_insert_eq. split; [by eexists|]. right.
      split_and!; [done..|lia].
    + rewrite lookup_insert_ne by done. congruence.
  - exfalso.
    destruct (verify_machine_signature mid uid (default 1 tok) txn_id signature)
      eqn:Hv;
      [|rewrite machine_verify_unauthorized in Hl' by done; simpl in Hl';
        congruence].
    destruct (session_get (transactions (db w)) txn_id) as [[tid0 t0]|] eqn:Hg;
      [|rewrite machine_verify_not_found in Hl' by done; simpl in Hl';
        congruence].
    destruct txn_id as [tid1|]; [|done]. simpl in Hg.
    destruct (transactions (db w) !! tid1) as [t1|] eqn:Hl1; [|done].
    simpl in Hg. injection Hg as -> ->.
    assert (Hne : tid0 ≠ tid) by congruence.
    destruct (decide (status t0 = pending)) as [Hs|Hs].
    + destruct (expired (clock (ticks w)) (created_at t0)) eqn:He.
      * destruct (machine_verify_expired mid uid tok tid0 signature w t0 Hv Hl1 Hs He)
          as (w' & Heq & Ht & _).
        rewrite Heq in Hl'. simpl in Hl'.
        rewrite Ht, lookup_alter_ne in Hl' by done. congruence.
      * rewrite (machine_verify_fresh mid uid tok tid0 signature w t0 Hv Hl1 Hs He)
          in Hl'. simpl in Hl'.
        rewrite lookup_alter_ne in Hl' by done. congruence.
    + rewrite (machine_verify_already_processed mid uid tok tid0 signature w t0)
        in Hl' by done. simpl in Hl'. congruence.
  - apply map_lookup_filter_Some in Hl' as [Hl' _]. congruence.
  - congruence.
  - exfalso. unfold register_machine in Hl'; unfold_M.
    destruct (truthy mid); simpl in Hl'; congruence.
  - exfalso.
    destruct (get_pending_effect mid w) as (w' & Heq & _ & _ & Hout & _).
    rewrite Heq in Hl'. simpl in Hl'. rewrite Hout in Hl'; [congruence|].
    intros Hin. apply list_elem_of_fmap in Hin as ([tid0 t0] & -> & Hin).
    apply pending_for_elem in Hin as (Hl0 & _). simpl in Hl. congruence.
Qed.

Lemma handle_keeps_consistent r w :
  consistent (db w) → consistent (db (handle r w).2).
Proof.
  intros Hc tid t' Hl'.
  destruct (transactions (db w) !! tid) as [t|] eqn:Hl.
  - destruct (Hc tid t Hl) as (Hown & Hcases).
    assert (Hown' : is_Some (users (db (handle r w).2) !! user_id t)).
    { destruct Hown as [u Hu].
      destruct (handle_users_kept r w _ u Hu) as (u' & Hu' & _). by eexists. }
    destruct (handle_txn_step r w tid t t' Hl Hl')
      as [->|(Hs & s & m & Hsm & ->)]; [done|]. simpl.
    split; [done|].
    destruct Hcases as [(Hty & _)|[(Hty & Hst)|(_ & Hst & _)]];
      [|congruence..].
    right; left. split; [done|]. by destruct Hsm as [->| ->].
  - destruct (handle_new_transaction r w tid t' Hl Hl') as (Hown & Hcases).
    split; [done|].
    destruct Hcases as [(? & ? & ?)|(? & ? & ? & ?)]; [by left|].
    right; right. done.
Qed.

(** In every world reached from a fresh deployment by any sequence of
    requests, every transaction's owner has a wallet, every pending
    transaction is a spend bound to a machine, and every purchase is
    verified, positive and bound to no machine. *)
Theorem reachable_consistent rs :
  consistent (db (serve rs initial_world)).
Proof.
  assert (H : ∀ w, consistent (db w) → consistent (db (serve rs w))).
  { induction rs as [|r rs IH]; intros w Hw; simpl; [done|].
    apply IH. by apply handle_keeps_consistent. }
  apply H. intros tid t Hl.
  assert (He : transactions (db initial_world) = ∅) by reflexivity.
  by rewrite He, lookup_empty in Hl.
Qed.

End MoreProperties.

(** * The further properties at work on the concrete deployment *)

Lemma get_wallet_creates_once_witness :
  users (db initial_world) !! "alice" = None ∧
  get_wallet (env:=demo_env) "alice" initial_world =
    ((200, BWallet "alice" 0),
     (get_wallet (env:=demo_env) "alice" initial_world).2) ∧
  users (db (get_wallet (env:=demo_env) "alice" initial_world).2) !! "alice" =
    Some (mkUser "Player" 0 0).
Proof.
  assert (Hn : users (db initial_world) !! "alice" = None) by reflexivity.
  split; [exact Hn|].
  pose proof (get_wallet_creates_once (env:=demo_env) "alice" initial_world) as H.
  destruct (get_wallet (env:=demo_env) "alice" initial_world) as [r w1].
  destruct H as (-> & Hnew & _). split; [reflexivity|].
  destruct (Hnew Hn) as [_ Hrow]. simpl. rewrite Hrow. reflexivity.
Defined.

Lemma give_tokens_then_get_wallet_witness :
  (get_wallet (env:=demo_env) "alice"
     (give_tokens (env:=demo_env) (Some "alice") None initial_world).2).1 =
    (200, BWallet "alice" 10) ∧
  (give_tokens (env:=demo_env) (Some "alice") None initial_world).1 =
    (200, BBalance 10).
Proof.
  assert (H : ∀ u, truthy (Some "alice") = Some u →
                   fits_integer (balance (db initial_world) u + default 10 None)).
  { intros u _. rewrite initial_world_balances. unfold fits_integer.
    simpl. unfold INTEGER_MIN, INTEGER_MAX. lia. }
  pose proof (give_tokens_then_get_wallet (env:=demo_env) (Some "alice") None
                initial_world H) as (Hw & Hg & _).
  split; [exact Hw | exact Hg].
Defined.


Lemma startup_seeds_once_witness :
  machines (db (mkWorld empty_db 0 0)) !! "M001" = None ∧
  machines (db initial_world) !! "M001" =
    Some (mkMachine (Some "Double Dragon") 1 None) ∧
  startup initial_world = (tt, initial_world).
Proof.
  assert (Hn : machines (db (mkWorld empty_db 0 0)) !! "M001" = None)
    by reflexivity.
  split; [exact Hn|].
  destruct (startup_seeds_once (mkWorld empty_db 0 0))
    as (Hseed & _ & _ & _ & _ & Hagain).
  split; [exact (Hseed Hn) | exact Hagain].
Defined.

Lemma get_history_lists_newest_witness :
  (length (filter (λ it, user_id it.2 = "alice")
             (map_to_list (transactions (db demo_claimed)))) ≤ 50)%nat ∧
  transactions (db demo_claimed) !! "txn-0" =
    Some (set_machine_id (Some "M001") (set_status verified demo_reservation)) ∧
  ∃ es,
    get_history "alice" demo_claimed = ((200, BHistory es), demo_claimed) ∧
    mkHistoryEntry "txn-0" spend (-3) "M001" "Double Dragon" verified 1000000 ∈ es.
Proof.
  assert (Hlen : (length (filter (λ it, user_id it.2 = "alice")
             (map_to_list (transactions (db demo_claimed)))) ≤ 50)%nat)
    by (vm_compute; lia).
  assert (Hl : transactions (db demo_claimed) !! "txn-0" =
    Some (set_machine_id (Some "M001") (set_status verified demo_reservation)))
    by (vm_compute; reflexivity).
  split; [exact Hlen|]. split; [exact Hl|].
  destruct (get_history_lists_newest "alice" demo_claimed)
    as (es & Heq & _ & _ & _ & Hall).
  exists es. split; [exact Heq|].
  exact (Hall Hlen "txn-0" _ Hl eq_refl).
Defined.

Lemma handle_keeps_transaction_data_witness :
  transactions (db demo_reserved) !! "txn-0" = Some demo_reservation ∧
  transactions (db demo_claimed) !! "txn-0" =
    Some (set_machine_id (Some "M001") (set_status verified demo_reservation)) ∧
  tokens (set_machine_id (Some "M001") (set_status verified demo_reservation)) =
    tokens demo_reservation.
Proof.
  assert (Hl : transactions (db demo_reserved) !! "txn-0" = Some demo_reservation)
    by (vm_compute; reflexivity).
  assert (Hl' : transactions (db demo_claimed) !! "txn-0" =
    Some (set_machine_id (Some "M001") (set_status verified demo_reservation)))
    by (vm_compute; reflexivity).
  split; [exact Hl|]. split; [exact Hl'|].
  destruct (handle_keeps_transaction_data (env:=demo_env)
              (Verify (Some "M001") (Some "alice") (Some 3) (Some "txn-0")
                      demo_signature)
              demo_reserved "txn-0" _ _ Hl Hl') as (_ & Htok & _).
  exact Htok.
Defined.

Lemma handle_keeps_machines_witness :
  (∀ mid nm tpc, Pending "M001" ≠ Register mid nm tpc) ∧
  machines (db (handle (env:=demo_env) (Pending "M001") demo_reserved).2) =
    machines (db demo_reserved).
Proof.
  assert (H : ∀ mid nm tpc, Pending "M001" ≠ Register mid nm tpc)
    by (intros; discriminate).
  split; [exact H|].
  exact (handle_keeps_machines (env:=demo_env) (Pending "M001") demo_reserved H).
Defined.

Lemma get_pending_nothing_pending_witness :
  (∀ tid t, transactions (db demo_claimed) !! tid = Some t →
            ¬ (machine_id t = Some "M001" ∧ status t = pending)) ∧
  get_pending (env:=demo_env) "M001" demo_claimed =
    ((200, BPending []), demo_claimed).
Proof.
  assert (H : ∀ tid t, transactions (db demo_claimed) !! tid = Some t →
                       ¬ (machine_id t = Some "M001" ∧ status t = pending)).
  { intros tid t Hl [_ Hs].
    assert (Hin : (tid, t) ∈ map_to_list (transactions (db demo_claimed)))
      by (by apply elem_of_map_to_list).
    assert (Hlist : map_to_list (transactions (db demo_claimed)) =
              [("txn-0", set_machine_id (Some "M001")
                           (set_status verified demo_reservation))])
      by (vm_compute; reflexivity).
    rewrite Hlist in Hin. apply list_elem_of_singleton in Hin.
    injection Hin as _ ->. discriminate Hs. }
  split; [exact H|].
  exact (get_pending_nothing_pending (env:=demo_env) "M001" demo_claimed H).
Defined.


Lemma machine_verify_success_inv_witness :
  machine_verify (env:=demo_env) (Some "M001") (Some "alice") (Some 3)
    (Some "txn-0") demo_signature demo_reserved =
    ((200, BCredits 3 (Some "txn-0")), demo_claimed) ∧
  1 ≤ 3 ∧
  users (db demo_claimed) = users (db demo_reserved).
Proof.
  assert (Heq : machine_verify (env:=demo_env) (Some "M001") (Some "alice")
                  (Some 3) (Some "txn-0") demo_signature demo_reserved =
                ((200, BCredits 3 (Some "txn-0")), demo_claimed))
    by (vm_compute; reflexivity).
  split; [exact Heq|].
  destruct (machine_verify_success_inv (env:=demo_env) _ _ _ _ _ _ _ _ _ Heq)
    as (Hc & _ & _ & Hu & _).
  split; [exact Hc | exact Hu].
Defined.

Lemma pay_then_verify_credits_witness :
  app_pay (env:=demo_env) (Some "alice") (Some "M001") (Some 3) demo_funded =
    ((200, BPay "txn-0" 7 60), demo_reserved) ∧
  rate_of (db demo_funded) (Some "M001") ≠ 0 ∧
  ∃ w2,
    machine_verify (env:=demo_env) (Some "M001") (Some "alice") (Some 3)
      (Some "txn-0") demo_signature demo_reserved =
      ((200, BCredits (Z.max 1 (3 / rate_of (db demo_funded) (Some "M001")))
              (Some "txn-0")), w2) ∧
    balance (db w2) "alice" = balance (db demo_funded) "alice" - 3.
Proof.
  assert (Hpay : app_pay (env:=demo_env) (Some "alice") (Some "M001") (Some 3)
                   demo_funded = ((200, BPay "txn-0" 7 60), demo_reserved))
    by (vm_compute; reflexivity).
  assert (Hrate : rate_of (db demo_funded) (Some "M001") ≠ 0)
    by (vm_compute; discriminate).
  split; [exact Hpay|]. split; [exact Hrate|].
  destruct (pay_then_verify_credits (env:=demo_env) _ _ _ _ _ _ _ _
              demo_signature Hpay) as (u & w2 & Hu & Heq & _ & Hb & _).
  - vm_compute; reflexivity.
  - intros k Hk.
    assert (Ht0 : ticks demo_funded = 1%nat) by (vm_compute; reflexivity).
    assert (Ht1 : ticks demo_reserved = 2%nat) by (vm_compute; reflexivity).
    rewrite Ht0, Ht1 in Hk. rewrite Ht1.
    assert (k = 1%nat) as -> by lia. vm_compute. discriminate.
  - exact Hrate.
  - injection Hu as <-. exists w2. split; [exact Heq | exact Hb].
Defined.


Lemma handle_keeps_wallets_witness :
  users (db demo_funded) !! "alice" = Some (mkUser "Player" 10 0) ∧
  ∃ u',
    users (db (handle (env:=demo_env)
                 (Pay (Some "alice") (Some "M001") (Some 3)) demo_funded).2)
      !! "alice" = Some u' ∧
    display_name u' = "Player" ∧ user_created_at u' = 0.
Proof.
  assert (Hl : users (db demo_funded) !! "alice" = Some (mkUser "Player" 10 0))
    by (vm_compute; reflexivity).
  split; [exact Hl|].
  exact (handle_keeps_wallets (env:=demo_env)
           (Pay (Some "alice") (Some "M001") (Some 3)) demo_funded
           "alice" _ Hl).
Defined.

Lemma serve_nonneg_witness :
  Forall (λ r, ¬ negative_grant r)
    [GiveTokens (Some "alice") None;
     Pay (Some "alice") (Some "M001") (Some 3);
     Pending "M001"] ∧
  (∀ v, 0 ≤ balance (db initial_world) v) ∧
  ∀ v, 0 ≤ balance
             (db (serve (env:=slow_env)
                    [GiveTokens (Some "alice") None;
                     Pay (Some "alice") (Some "M001") (Some 3);
                     Pending "M001"] initial_world)) v.
Proof.
  assert (Hrs : Forall (λ r, ¬ negative_grant r)
    [GiveTokens (Some "alice") None;
     Pay (Some "alice") (Some "M001") (Some 3);
     Pending "M001"]).
  { repeat constructor; simpl; try tauto. intros [_ H]. discriminate H. }
  assert (H0 : ∀ v, 0 ≤ balance (db initial_world) v)
    by (intros v; by rewrite initial_world_balances).
  split; [exact Hrs|]. split; [exact H0|].
  exact (serve_nonneg (env:=slow_env) _ initial_world Hrs H0).
Defined.

Lemma app_pay_refusal_witness :
  balance (db demo_funded) "alice" < default 1 (Some 30) ∧
  (app_pay (env:=demo_env) (Some "alice") (Some "M001") (Some 30) demo_funded).1 =
    InsufficientTokens 10 30 ∧
  transactions
    (db (app_pay (env:=demo_env) (Some "alice") (Some "M001") (Some 30)
           demo_funded).2) = transactions (db demo_funded).
Proof.
  assert (Hlt : balance (db demo_funded) "alice" < default 1 (Some 30))
    by (vm_compute; reflexivity).
  split; [exact Hlt|].
  destruct (app_pay_refusal (env:=demo_env) (Some "alice") (Some "M001")
              (Some 30) demo_funded) as [Hsame Hshort].
  assert (Hr : (app_pay (env:=demo_env) (Some "alice") (Some "M001") (Some 30)
                  demo_funded).1 = InsufficientTokens 10 30).
  { rewrite (Hshort "alice" "M001" eq_refl eq_refl Hlt).
    vm_compute. reflexivity. }
  split; [exact Hr|].
  apply Hsame. rewrite Hr. vm_compute. discriminate.
Defined.
